(** * evalml: problem-type resolver and stacked classification ensembles

    A shallow embedding of

    - [evalml/problem_types/utils.py] ([handle_problem_types]), and
    - [evalml/pipelines/ensemble_classification_pipelines.py]
      ([EnsembleClassificationPipeline]: [_preds_processor], [fit],
      [transform]),

    followed by the properties their specification states about them.

    Python values keep their dynamic shape: a value handed to the resolver is
    an enum member, a string, a sequence or something else; a column label is
    an [int] or a [str]; exceptions are a sum type and a raising function
    returns [inl].  Objects that the code mutates through a reference
    (prediction tables, pipelines) live in a store indexed by locations. *)

From Stdlib Require Import ZArith Ascii String DecimalString Decimal DecimalZ.
From stdpp Require Import gmap strings list sorting.

Local Open Scope string_scope.
Local Open Scope Z_scope.

Set Warnings "-register-all".

(** ** Python strings and exceptions *)

(** [str.upper()] on the ASCII range: the letters [a]..[z] are moved to
    [A]..[Z], every other byte is kept. *)
Definition ascii_upper (c : ascii) : ascii :=
  let n := nat_of_ascii c in
  if (97 <=? n)%nat && (n <=? 122)%nat then ascii_of_nat (n - 32) else c.

Fixpoint upper (s : string) : string :=
  match s with
  | EmptyString => EmptyString
  | String c s' => String (ascii_upper c) (upper s')
  end.

(** [str(i)] for an integer [i]: its decimal numeral, with a leading minus
    sign when negative. *)
Definition str_of_int (z : Z) : string := NilEmpty.string_of_int (Z.to_int z).

(** A text without blanks, as a decimal numeral is. *)
Fixpoint no_space (s : string) : Prop :=
  match s with
  | EmptyString => True
  | String c s' => c <> " "%char /\ no_space s'
  end.

(** The exceptions the two files raise.  [KeyError] is the only one that is a
    [LookupError]. *)
Inductive exn : Type :=
  | KeyError (msg : string)
  | ValueError (msg : string)
  | TypeError (msg : string).

Definition is_LookupError (e : exn) : bool :=
  match e with KeyError _ => true | _ => false end.

Definition is_ValueError (e : exn) : bool :=
  match e with ValueError _ => true | _ => false end.

Definition exn_msg (e : exn) : string :=
  match e with KeyError m | ValueError m | TypeError m => m end.

(** [carries msg s]: the text [s] occurs inside [msg]. *)
Definition carries (msg s : string) : Prop :=
  exists pre post : string, msg = pre ++ s ++ post.

(** ** problem_types/utils.py *)

Section Resolver.

(** The enumeration [ProblemTypes] lives in [problem_types.py], which is not
    among the sources: the resolver is embedded over any enumeration, given
    by its type of members and its lookup by name, [ProblemTypes[name]]
    ([None] when Python raises [KeyError]). *)
Context {ProblemTypes : Type}.
Variable ProblemTypes_getitem : string -> option ProblemTypes.

(** What a caller can pass: a member, a string, a sequence of values, or any
    other object (a number, [None], ...), which is not iterable. *)
Inductive pyval : Type :=
  | VEnum (p : ProblemTypes)
  | VStr (s : string)
  | VOther (repr : string)
  | VList (items : list pyval).

Definition does_not_exist (problem_type : string) : string :=
  "Problem type '" ++ problem_type ++ "' does not exist".

(** The [for problem_type in problem_types] loop, with [types] the list
    built so far. *)
Fixpoint resolve_loop (items : list pyval) (types : list pyval)
  : exn + list pyval :=
  match items with
  | [] => inr types
  | problem_type :: rest =>
      match problem_type with
      | VEnum _ => resolve_loop rest (types ++ [problem_type])
      | VStr s =>
          match ProblemTypes_getitem (upper s) with
          | Some tp => resolve_loop rest (types ++ [VEnum tp])
          | None => inl (KeyError (does_not_exist s))
          end
      | _ => resolve_loop rest types
      end
  end.

Definition handle_problem_types (problem_types : pyval) : exn + pyval :=
  match problem_types with
  | VEnum _ => inr problem_types
  | _ =>
      let problem_types :=
        match problem_types with
        | VStr _ => VList [problem_types]
        | _ => problem_types
        end in
      match problem_types with
      | VList items =>
          match resolve_loop items [] with
          | inr types => inr (VList types)
          | inl e => inl e
          end
      | _ => inl (TypeError "object is not iterable")
      end
  end.

(** The elements the loop looks at. *)
Definition is_str_or_enum (v : pyval) : bool :=
  match v with VEnum _ | VStr _ => true | _ => false end.

(** What one element of a sequence of members and matching strings becomes. *)
Definition resolved_as (v w : pyval) : Prop :=
  match v with
  | VEnum p => w = VEnum p
  | VStr s => exists tp, ProblemTypes_getitem (upper s) = Some tp /\ w = VEnum tp
  | _ => False
  end.

(** Two outcomes agree when they return the same value or raise the same
    kind of exception. *)
Definition same_outcome (a b : exn + pyval) : Prop :=
  match a, b with
  | inr x, inr y => x = y
  | inl (KeyError _), inl (KeyError _) => True
  | inl (ValueError _), inl (ValueError _) => True
  | inl (TypeError _), inl (TypeError _) => True
  | _, _ => False
  end.

End Resolver.

Arguments pyval : clear implicits.


(** ** Tables: the part of pandas and woodwork that [_preds_processor] uses *)

(** A column label is an [int] or a [str]. *)
Inductive label : Type :=
  | LInt (i : Z)
  | LStr (s : string).

#[global] Instance label_eq_dec : EqDecision label.
Proof. solve_decision. Defined.

#[global] Instance label_countable : Countable label :=
  inj_countable'
    (fun c => match c with LInt i => inl i | LStr s => inr s end)
    (fun x => match x with inl i => LInt i | inr s => LStr s end)
    (fun c => match c with LInt _ | LStr _ => eq_refl end).

(** [str(col)] for a column label. *)
Definition py_str (col : label) : string :=
  match col with
  | LInt i => str_of_int i
  | LStr s => s
  end.

(** [list(enumerate(l))] *)
Definition enumerate {A : Type} (l : list A) : list (nat * A) := imap pair l.

Section Tables.

(** Cell values are opaque to this code; [None] is a missing value. *)
Context {V : Type} `{EqDecision V}.

(** A data frame: its row index and its columns in order, each column a
    label and one cell per row.  A woodwork-typed frame has pairwise distinct
    column labels. *)
Record DataFrame : Type := mkDataFrame {
  df_index : list Z;
  df_cols : list (label * list (option V));
}.

Record Series : Type := mkSeries {
  s_index : list Z;
  s_values : list (option V);
}.

(** [df.columns] *)
Definition df_columns (df : DataFrame) : list label := (df_cols df).*1.

(** [len(df)], [len(y)]: the number of rows. *)
Definition df_len (df : DataFrame) : nat := length (df_index df).
Definition s_len (y : Series) : nat := length (s_index y).

(** [y.nunique()]: the number of distinct values, missing ones left out. *)
Definition nunique (y : Series) : nat :=
  length (remove_dups (omap id (s_values y))).

(** [df.ww.rename(mapping)]: every column whose label is a key of [mapping]
    takes the mapped label; all at once. *)
Definition ww_rename (mapping : gmap label label) (df : DataFrame)
  : DataFrame :=
  {| df_index := df_index df;
     df_cols :=
       map (fun cd : label * list (option V) =>
              (default cd.1 (mapping !! cd.1), cd.2)) (df_cols df) |}.

(** [df.ww.drop(col)]: the frame without the columns labelled [col]. *)
Definition ww_drop (col : label) (df : DataFrame) : DataFrame :=
  {| df_index := df_index df;
     df_cols := filter (fun cd : label * list (option V) => cd.1 <> col)
                       (df_cols df) |}.

(** The dictionary built by
    [for i, column in enumerate(preds.columns): new_columns[column] = i]. *)
Definition positional_dict (cols : list label) : gmap label label :=
  fold_left
    (fun (new_columns : gmap label label) (ic : nat * label) =>
       <[ic.2 := LInt (Z.of_nat ic.1)]> new_columns)
    (enumerate cols) ∅.

(** [f"Col {str(col)} {pipeline_name}.x"] *)
Definition col_key (col : label) (pipeline_name : string) : label :=
  LStr ("Col " ++ py_str col ++ " " ++ pipeline_name ++ ".x").

(** [{col: f"Col {str(col)} {pipeline_name}.x" for col in preds.columns}] *)
Definition key_dict (cols : list label) (pipeline_name : string)
  : gmap label label :=
  fold_left
    (fun (d : gmap label label) (col : label) =>
       <[col := col_key col pipeline_name]> d)
    cols ∅.

(** The two tables that one call of [_preds_processor] on a table [df]
    leaves behind: [df] renamed in place, and the table it returns. *)
Definition renamed_in_place (df : DataFrame) : DataFrame :=
  ww_rename (positional_dict (df_columns df)) df.

Definition returned_table (df : DataFrame) (pipeline_name : string)
  : DataFrame :=
  let df1 := renamed_in_place df in
  let df2 :=
    if Nat.eqb (length (df_columns df1)) 2
    then match df_columns df1 with
         | col0 :: _ => ww_drop col0 df1
         | [] => df1
         end
    else df1 in
  ww_rename (key_dict (df_columns df2) pipeline_name) df2.

(** The reshaping policy in the words of the specification: the columns are
    named by their positions [0, 1, 2, ...]; *)
Definition spec_positional (df : DataFrame) : DataFrame :=
  {| df_index := df_index df;
     df_cols := imap (fun (i : nat) (cd : label * list (option V)) =>
                        (LInt (Z.of_nat i), cd.2)) (df_cols df) |}.

(** with exactly two columns the first one is dropped; what remains is named
    by the composite key of its position and the pipeline's name. *)
Definition spec_reshape (df : DataFrame) (pipeline_name : string)
  : DataFrame :=
  let positional := df_cols (spec_positional df) in
  let kept :=
    if Nat.eqb (length positional) 2 then tail positional else positional in
  {| df_index := df_index df;
     df_cols := map (fun cd : label * list (option V) =>
                       (col_key cd.1 pipeline_name, cd.2)) kept |}.

(** The labels [0, 1, ..., k-1]. *)
Definition positions (k : nat) : list label :=
  map (fun i : nat => LInt (Z.of_nat i)) (seq 0 k).

(** What a reference to a prediction result can point to. *)
Inductive pyobj : Type :=
  | ODataFrame (df : DataFrame)
  | OSeries (y : Series)
  | ONone.

End Tables.

Arguments DataFrame : clear implicits.
Arguments Series : clear implicits.
Arguments pyobj : clear implicits.

(** ** The collaborators of the ensemble *)

Abbreviation loc := nat (only parsing).

(** [data_splitter.split(X, y)]: the (train, validation) row positions of
    every fold, in order. *)
Definition Splitter (V : Type) : Type :=
  DataFrame V -> Series V -> list (list nat * list nat).

(** The contract of an input pipeline, as the ensemble uses it.  [pl_fit]
    gives the state of the object after [fit(X, y)], which mutates it;
    [pl_clone] gives the state of the new object. *)
Class PipelineContract (V P : Type) : Type := {
  pl_name : P -> string;
  pl_is_fitted : P -> bool;
  pl_clone : P -> P;
  pl_fit : P -> DataFrame V -> Series V -> P;
  pl_predict_proba : P -> DataFrame V -> pyobj V;
}.

(** What is imported from elsewhere and used as a black box: the predicates
    on problem types ([is_binary], [is_multiclass], the member
    [ProblemTypes.BINARY]), type inference, the default splitter, the pandas
    and woodwork operations on rows, and the metalearner's component graph
    [CG]. *)
Class Collaborators (V PT CG : Type) : Type := {
  is_binary : PT -> bool;
  is_multiclass : PT -> bool;
  ProblemTypes_BINARY : PT;
  infer_feature_types_X : DataFrame V -> DataFrame V;
  infer_feature_types_y : Series V -> Series V;
  make_data_splitter : DataFrame V -> Series V -> PT -> Splitter V;
  X_iloc : DataFrame V -> list nat -> DataFrame V;
  y_iloc : Series V -> list nat -> Series V;
  X_loc : DataFrame V -> list Z -> DataFrame V;
  pd_concat : list (DataFrame V) -> DataFrame V;
  pd_concat_series : list (Series V) -> Series V;
  concat_columns : list (DataFrame V) -> DataFrame V;
  np_unique : Series V -> list V;
  cg_fit : CG -> DataFrame V -> Series V -> CG;
}.

(** ** The store and the monad of the ensemble's methods *)

Section Store.

Context {V PT CG P : Type}.

(** The fields of [self]. [cv_valid_data] is the dictionary from pipeline
    names to lists of [(X, preds)] pairs, in insertion order; the empty list
    stands for an empty dictionary and for [None], which are both false. *)
Record Ensemble : Type := mkEnsemble {
  problem_type : PT;
  input_pipelines : list loc;
  cv_valid_data : list (string * list (DataFrame V * loc));
  component_graph : CG;
  _classes_ : option (list V);
}.

(** The calls made on pipeline objects, in the order they happen. *)
Inductive event : Type :=
  | EvClone (src new : loc)
  | EvFit (pipeline : loc) (X : DataFrame V) (y : Series V)
  | EvPredictProba (pipeline : loc) (X : DataFrame V).

(** The number of [clone()] calls in a log, and the pipelines that its
    [fit] calls were made on, in order. *)
Definition count_clones (lg : list event) : nat :=
  length (List.filter
            (fun ev => match ev with EvClone _ _ => true | _ => false end) lg).

Definition fit_targets (lg : list event) : list loc :=
  omap (fun ev => match ev with EvFit p _ _ => Some p | _ => None end) lg.

(** Every pipeline cloned anew in every fold, and every such clone fitted
    once only: with [n] input pipelines and [k] folds the log has [n * k]
    clone calls, and no pipeline is the target of two [fit] calls. *)
Definition cloned_fresh_per_fold (n k : nat) (lg : list event) : Prop :=
  count_clones lg = (n * k)%nat /\ NoDup (fit_targets lg).

Record State : Type := mkState {
  frames : gmap loc (pyobj V);
  pipes : gmap loc P;
  self : Ensemble;
  log : list event;
}.

(** A call returns, raises, or is [Ill]: it followed a reference to no
    object, which no Python run does. *)
Inductive outcome (A : Type) : Type :=
  | Done (a : A)
  | Raised (e : exn)
  | Ill.

Definition M (A : Type) : Type := State -> State * outcome A.

Definition ret {A : Type} (a : A) : M A := fun s => (s, Done A a).

Definition raise {A : Type} (e : exn) : M A := fun s => (s, Raised A e).

Definition ill {A : Type} : M A := fun s => (s, Ill A).

Definition bindM {A B : Type} (c : M A) (k : A -> M B) : M B :=
  fun s =>
    match c s with
    | (s', Done _ a) => k a s'
    | (s', Raised _ e) => (s', Raised B e)
    | (s', Ill _) => (s', Ill B)
    end.

End Store.

Arguments Ensemble : clear implicits.
Arguments event : clear implicits.
Arguments State : clear implicits.
Arguments Done {_} a.
Arguments Raised {_} e.
Arguments Ill {_}.

Declare Scope py_scope.
Delimit Scope py_scope with py.
Notation "'let!' x ':=' c1 'in' c2" := (bindM c1 (fun x => c2))
  (at level 10, x pattern, c1 at level 100, c2 at level 200) : py_scope.
Notation "c1 >> c2" := (bindM c1 (fun _ => c2))
  (at level 100, c2 at level 200, right associativity) : py_scope.
Local Open Scope py_scope.

Section Primitives.

Context {V PT CG P : Type}.

Local Abbreviation Mo := (@M V PT CG P).

Fixpoint mapM {A B : Type} (f : A -> Mo B) (l : list A) : Mo (list B) :=
  match l with
  | [] => ret []
  | a :: l' =>
      let! b := f a in
      let! bs := mapM f l' in
      ret (b :: bs)
  end.

Definition get_self : Mo (Ensemble V PT CG) := fun s => (s, Done (self s)).

Definition set_self (e : Ensemble V PT CG) : Mo unit :=
  fun s => (mkState (frames s) (pipes s) e (log s), Done tt).

Definition emit (ev : event V) : Mo unit :=
  fun s => (mkState (frames s) (pipes s) (self s) (log s ++ [ev]), Done tt).

Definition get_frame (l : loc) : Mo (pyobj V) :=
  fun s =>
    match frames s !! l with
    | Some o => (s, Done o)
    | None => (s, Ill)
    end.

Definition get_dataframe (l : loc) : Mo (DataFrame V) :=
  let! o := get_frame l in
  match o with
  | ODataFrame df => ret df
  | _ => ill
  end.

Definition set_frame (l : loc) (o : pyobj V) : Mo unit :=
  fun s => (mkState (<[l := o]> (frames s)) (pipes s) (self s) (log s), Done tt).

(** A new object gets a location that holds nothing yet. *)
Definition alloc_frame (o : pyobj V) : Mo loc :=
  fun s =>
    let l := fresh (dom (frames s)) in
    (mkState (<[l := o]> (frames s)) (pipes s) (self s) (log s), Done l).

Definition get_pipe (l : loc) : Mo P :=
  fun s =>
    match pipes s !! l with
    | Some p => (s, Done p)
    | None => (s, Ill)
    end.

Definition set_pipe (l : loc) (p : P) : Mo unit :=
  fun s => (mkState (frames s) (<[l := p]> (pipes s)) (self s) (log s), Done tt).

Definition alloc_pipe (p : P) : Mo loc :=
  fun s =>
    let l := fresh (dom (pipes s)) in
    (mkState (frames s) (<[l := p]> (pipes s)) (self s) (log s), Done l).

(** [raises_only c ok]: whatever [c] raises satisfies [ok]. *)
Definition raises_only {A : Type} (c : Mo A) (ok : exn -> Prop) : Prop :=
  forall (s s' : State V PT CG P) (e : exn), c s = (s', Raised e) -> ok e.

(** [kept s s']: going from [s] to [s'] left the fields of the ensemble, the
    pipeline objects and every table object of [s] as they were ([s'] may
    hold new tables, and its log may be longer). *)
Definition kept (s s' : State V PT CG P) : Prop :=
  self s' = self s /\ pipes s' = pipes s /\
  forall l : loc, is_Some (frames s !! l) -> frames s' !! l = frames s !! l.

(** [untouched clones s s']: going from [s] to [s'] left the fields of the
    ensemble, every table object of [s] and the pipeline objects other than
    [clones] as they were. *)
Definition untouched (clones : list loc) (s s' : State V PT CG P) : Prop :=
  self s' = self s /\
  (forall l : loc, is_Some (frames s !! l) -> frames s' !! l = frames s !! l) /\
  (forall l : loc, l ∉ clones -> pipes s' !! l = pipes s !! l).

End Primitives.

(** ** pipelines/ensemble_classification_pipelines.py *)

Section Methods.

Context {V : Type} `{EqDecision V} {PT CG P : Type}.
Context `{PipelineContract V P} `{Collaborators V PT CG}.

Local Abbreviation Mo := (@M V PT CG P).

(** *** Method calls on a pipeline object *)

(** [pipeline.clone()]: a new object. *)
Definition call_clone (pipeline : loc) : Mo loc :=
  let! p := get_pipe pipeline in
  let! new := alloc_pipe (pl_clone p) in
  emit (EvClone pipeline new) >>
  ret new.

(** [pipeline.fit(X, y)]: the object itself changes. *)
Definition call_fit (pipeline : loc) (X : DataFrame V) (y : Series V)
  : Mo unit :=
  let! p := get_pipe pipeline in
  set_pipe pipeline (pl_fit p X y) >>
  emit (EvFit pipeline X y).

(** [pipeline.predict_proba(X)]: the result is a new object. *)
Definition call_predict_proba (pipeline : loc) (X : DataFrame V) : Mo loc :=
  let! p := get_pipe pipeline in
  emit (EvPredictProba pipeline X) >>
  alloc_frame (pl_predict_proba p X).

(** [pipeline.name] *)
Definition call_name (pipeline : loc) : Mo string :=
  let! p := get_pipe pipeline in
  ret (pl_name p).

(** *** [_preds_processor] *)

Definition preds_not_dataframe : string :=
  "Preds must be in the form of a pd.Dataframe".

(** [preds.ww] is the woodwork accessor, which raises on a table that
    woodwork has not initialised: a table that gets past the renaming of line
    116 is a woodwork table, and the column labels of a woodwork table are
    pairwise distinct.  The definition gives what the method does on such
    tables, and the properties of the method are stated for them. *)
Definition _preds_processor (preds : loc) (pipeline_name : string) : Mo loc :=
  let! o := get_frame preds in
  match o with
  | ODataFrame df =>
      let new_columns := positional_dict (df_columns df) in
      (* preds.ww.rename(new_columns, inplace=True) *)
      set_frame preds (ODataFrame (ww_rename new_columns df)) >>
      let! df1 := get_dataframe preds in
      let! preds1 :=
        (if Nat.eqb (length (df_columns df1)) 2
         then
           match df_columns df1 with
           | col0 :: _ => alloc_frame (ODataFrame (ww_drop col0 df1))
           | [] => ill
           end
         else ret preds) in
      let! df2 := get_dataframe preds1 in
      alloc_frame
        (ODataFrame (ww_rename (key_dict (df_columns df2) pipeline_name) df2))
  | _ => raise (ValueError preds_not_dataframe)
  end.

(** *** What the base class provides *)

(** Modelled from the spec: the property [_all_input_pipelines_fitted] of
    [EnsemblePipelineBase] ([ensemble_pipeline_base.py] is missing): all
    input pipelines are already fitted. *)
Definition _all_input_pipelines_fitted : Mo bool :=
  let! slf := get_self in
  let! ps := mapM get_pipe (input_pipelines slf) in
  ret (forallb pl_is_fitted ps).

(** Modelled from the spec: [_fit_input_pipelines(X, y, force_retrain=True)]
    of [EnsemblePipelineBase] ([ensemble_pipeline_base.py] is missing): the
    input pipelines are fitted directly on the full [(X, y)]. *)
Definition _fit_input_pipelines (X : DataFrame V) (y : Series V) : Mo unit :=
  let! slf := get_self in
  mapM (fun pipeline => call_fit pipeline X y) (input_pipelines slf) >>
  ret tt.

(** *** [fit] *)

Definition binary_requires : string :=
  "Binary pipelines require y to have 2 unique classes!".

Definition multiclass_requires : string :=
  "Multiclass pipelines require y to have 3 or more unique classes!".

(** Lines 142-147: the check of the number of classes. *)
Definition check_classes (pt : PT) (y : Series V) : Mo unit :=
  if is_binary pt && negb (Nat.eqb (nunique y) 2)
  then raise (ValueError binary_requires)
  else if is_multiclass pt && bool_decide (nunique y ∈ [1%nat; 2%nat])
  then raise (ValueError multiclass_requires)
  else ret tt.

(** Lines 156-167: the metalearner's training set from the stored
    cross-validation predictions. *)
Definition from_cv_valid_data (slf : Ensemble V PT CG) (y : Series V)
  : Mo (DataFrame V * Series V) :=
  let! metalearner_X :=
    mapM (fun item : string * list (DataFrame V * loc) =>
            let! pl_valid_preds :=
              mapM (fun Xp : DataFrame V * loc =>
                      let! r := _preds_processor Xp.2 item.1 in
                      get_dataframe r) item.2 in
            ret (pd_concat pl_valid_preds))
         (cv_valid_data slf) in
  let metalearner_X := concat_columns metalearner_X in
  let metalearner_y := y in
  let metalearner_X :=
    if negb (Nat.eqb (df_len metalearner_X) (s_len metalearner_y))
    then X_loc metalearner_X (s_index metalearner_y)
    else metalearner_X in
  ret (metalearner_X, metalearner_y).

(** Lines 194-197: one pipeline of [pred_pls] in one fold. *)
Definition fold_pipeline (X_train : DataFrame V) (y_train : Series V)
  (X_valid : DataFrame V) (pipeline : loc) : Mo (DataFrame V) :=
  call_fit pipeline X_train y_train >>
  let! pl_preds := call_predict_proba pipeline X_valid in
  let! name := call_name pipeline in
  let! r := _preds_processor pl_preds name in
  get_dataframe r.

(** Lines 190-200: one fold. *)
Definition one_fold (X : DataFrame V) (y : Series V) (pred_pls : list loc)
  (split : list nat * list nat) : Mo (DataFrame V * Series V) :=
  let '(train, valid) := split in
  let X_train := X_iloc X train in
  let X_valid := X_iloc X valid in
  let y_train := y_iloc y train in
  let y_valid := y_iloc y valid in
  let! fold_X := mapM (fold_pipeline X_train y_train X_valid) pred_pls in
  ret (concat_columns fold_X, y_valid).

(** Lines 170-203: the metalearner's training set from cross-validation done
    here. *)
Definition from_splits (slf : Ensemble V PT CG) (X : DataFrame V)
  (y : Series V) (data_splitter : option (Splitter V))
  : Mo (DataFrame V * Series V) :=
  let data_splitter :=
    match data_splitter with
    | None => make_data_splitter X y ProblemTypes_BINARY
    | Some d => d
    end in
  let splits := data_splitter X y in
  let! pred_pls := mapM call_clone (input_pipelines slf) in
  let! blocks := mapM (one_fold X y pred_pls) splits in
  ret (pd_concat blocks.*1, pd_concat_series blocks.*2).

(** The calls that one fold makes on the pipelines [pred_pls], and the calls
    of the whole cross-validation through the clones [pred_pls] of the
    pipelines [pls]. *)
Definition fold_events (X : DataFrame V) (y : Series V) (pred_pls : list loc)
  (split : list nat * list nat) : list (event V) :=
  flat_map (fun pipeline : loc =>
              [EvFit pipeline (X_iloc X split.1) (y_iloc y split.1);
               EvPredictProba pipeline (X_iloc X split.2)])
           pred_pls.

Definition cv_events (X : DataFrame V) (y : Series V) (pls pred_pls : list loc)
  (splits : list (list nat * list nat)) : list (event V) :=
  (zip_with EvClone pls pred_pls
   ++ flat_map (fold_events X y pred_pls) splits)%list.

(** The folds that [fit] uses. *)
Definition splits_of (X : DataFrame V) (y : Series V)
  (data_splitter : option (Splitter V)) : list (list nat * list nat) :=
  match data_splitter with
  | None => make_data_splitter X y ProblemTypes_BINARY X y
  | Some d => d X y
  end.

(** Lines 149-208: what [fit] does once the classes are checked. *)
Definition fit_checked (X : DataFrame V) (y : Series V)
  (data_splitter : option (Splitter V)) (force_retrain : bool) : Mo unit :=
  let! fitted := _all_input_pipelines_fitted in
  (if negb fitted || force_retrain
   then _fit_input_pipelines X y
   else ret tt) >>
  let! slf := get_self in
  let! m :=
    (if negb (bool_decide (cv_valid_data slf = [])) && negb force_retrain
     then from_cv_valid_data slf y
     else from_splits slf X y data_splitter) in
  let '(metalearner_X, metalearner_y) := m in
  let! slf := get_self in
  set_self
    (mkEnsemble (problem_type slf) (input_pipelines slf) (cv_valid_data slf)
       (cg_fit (component_graph slf) metalearner_X metalearner_y)
       (Some (np_unique metalearner_y))).

Definition fit (X : DataFrame V) (y : Series V)
  (data_splitter : option (Splitter V)) (force_retrain : bool) : Mo unit :=
  let X := infer_feature_types_X X in
  let y := infer_feature_types_y y in
  let! slf := get_self in
  check_classes (problem_type slf) y >>
  fit_checked X y data_splitter force_retrain.

(** *** [transform] *)

Definition needs_to_be_fitted : string :=
  "Input pipelines needs to be fitted before transform".

Definition transform (X : DataFrame V) : Mo (DataFrame V) :=
  let! fitted := _all_input_pipelines_fitted in
  if negb fitted
  then raise (ValueError needs_to_be_fitted)
  else
    let! slf := get_self in
    let! input_pipeline_preds :=
      mapM (fun pipeline =>
              let! pl_preds := call_predict_proba pipeline X in
              let! name := call_name pipeline in
              let! r := _preds_processor pl_preds name in
              get_dataframe r)
           (input_pipelines slf) in
    ret (concat_columns input_pipeline_preds).

End Methods.

(** *** [_predict] and [predict_proba] *)

(** The prediction methods that the ensemble inherits and calls through
    [super()]: they live in the classification pipeline base classes, which
    are not among the sources, and are used as black boxes that read the
    fitted ensemble. [Obj] is the type of objectives. *)
Class BasePipeline (V PT CG Obj : Type) : Type := {
  super_predict : Ensemble V PT CG -> DataFrame V -> option Obj -> Series V;
  super_predict_proba : Ensemble V PT CG -> DataFrame V -> DataFrame V;
}.

Section Predictions.

Context {V : Type} `{EqDecision V} {PT CG P Obj : Type}.
Context `{PipelineContract V P} `{Collaborators V PT CG}.
Context `{BasePipeline V PT CG Obj}.

Local Abbreviation Mo := (@M V PT CG P).

Definition _predict (X : DataFrame V) (objective : option Obj)
  : Mo (Series V) :=
  let! metalearner_X := transform X in
  let! slf := get_self in
  ret (super_predict slf metalearner_X objective).

Definition predict_proba (X : DataFrame V) (X_train : option (DataFrame V))
  (y_train : option (Series V)) : Mo (DataFrame V) :=
  let! metalearner_X := transform X in
  let! slf := get_self in
  ret (super_predict_proba slf metalearner_X).

End Predictions.

(** ** The methods read as functions of the pipelines and the tables *)

Section Readings.

Context {V : Type} `{EqDecision V} {PT CG P : Type}.
Context `{PipelineContract V P} `{Collaborators V PT CG}.

(** The table that a prediction is. *)
Definition table_of (o : pyobj V) : DataFrame V :=
  match o with
  | ODataFrame df => df
  | _ => mkDataFrame [] []
  end.

(** What the loops of [transform] and [fit] make of one pipeline, in the
    state [p], on the rows [X]: its prediction, given to
    [_preds_processor] under its name. *)
Definition reshaped_prediction (p : P) (X : DataFrame V) : DataFrame V :=
  returned_table (table_of (pl_predict_proba p X)) (pl_name p).

(** The table that [transform] returns. *)
Definition transform_matrix (X : DataFrame V) (ps : list P) : DataFrame V :=
  concat_columns (map (fun p => reshaped_prediction p X) ps).

(** The pipelines [qs] after each was fitted on the same rows. *)
Definition fit_all (X_train : DataFrame V) (y_train : Series V)
  (qs : list P) : list P :=
  map (fun q => pl_fit q X_train y_train) qs.

(** The block of one fold, from the states [qs] the pipelines have when the
    fold starts. *)
Definition fold_block (X : DataFrame V) (y : Series V) (qs : list P)
  (split : list nat * list nat) : DataFrame V * Series V :=
  (concat_columns
     (map (fun q => reshaped_prediction q (X_iloc X split.2))
          (fit_all (X_iloc X split.1) (y_iloc y split.1) qs)),
   y_iloc y split.2).

(** The blocks of all the folds: every fold starts from the states the
    fold before has left. *)
Fixpoint cv_blocks (X : DataFrame V) (y : Series V) (qs : list P)
  (splits : list (list nat * list nat)) : list (DataFrame V * Series V) :=
  match splits with
  | [] => []
  | split :: rest =>
      fold_block X y qs split
      :: cv_blocks X y (fit_all (X_iloc X split.1) (y_iloc y split.1) qs) rest
  end.

(** The states of the pipelines after the last fold. *)
Definition cv_final_states (X : DataFrame V) (y : Series V) (qs : list P)
  (splits : list (list nat * list nat)) : list P :=
  fold_left (fun qs' (split : list nat * list nat) =>
               fit_all (X_iloc X split.1) (y_iloc y split.1) qs')
            splits qs.

(** The training set of the metalearner that the cross-validation over the
    input pipelines [ps] gives. *)
Definition cv_training_set (X : DataFrame V) (y : Series V) (ps : list P)
  (splits : list (list nat * list nat)) : DataFrame V * Series V :=
  let blocks := cv_blocks X y (map pl_clone ps) splits in
  (pd_concat blocks.*1, pd_concat_series blocks.*2).

(** A stored object once [_preds_processor] has been called on it. *)
Definition touch (o : pyobj V) : pyobj V :=
  match o with
  | ODataFrame df => ODataFrame (spec_positional df)
  | _ => o
  end.

(** The table at a location of a store. *)
Definition stored_table (fr : gmap loc (pyobj V)) (l : loc) : DataFrame V :=
  table_of (default ONone (fr !! l)).

(** The locations of the prediction tables of [cv_valid_data]. *)
Definition cv_locs (cvd : list (string * list (DataFrame V * loc)))
  : list loc :=
  flat_map (fun item : string * list (DataFrame V * loc) => item.2.*2) cvd.

(** The training set of the metalearner that the stored predictions give,
    read from the tables of the store [fr]. *)
Definition cv_valid_matrix (fr : gmap loc (pyobj V))
  (cvd : list (string * list (DataFrame V * loc))) (y : Series V)
  : DataFrame V * Series V :=
  let metalearner_X :=
    concat_columns
      (map (fun item : string * list (DataFrame V * loc) =>
              pd_concat
                (map (fun Xp : DataFrame V * loc =>
                        spec_reshape (stored_table fr Xp.2) item.1) item.2))
           cvd) in
  (if negb (Nat.eqb (df_len metalearner_X) (s_len y))
   then X_loc metalearner_X (s_index y)
   else metalearner_X,
   y).

(** [renamed_so_far s0 s done]: going from [s0] to [s] changed nothing but
    the tables at the locations [done], which were renamed in place, and
    added new tables. *)
Definition renamed_so_far (s0 s : State V PT CG P) (done : gset loc) : Prop :=
  self s = self s0 /\ pipes s = pipes s0 /\ log s = log s0 /\
  forall (l : loc) (o : pyobj V),
    frames s0 !! l = Some o ->
    frames s !! l = Some (if decide (l ∈ done) then touch o else o).

End Readings.

(** ** The methods when the collaborators may raise *)

(** Every call that leaves this file can raise: the methods of an input
    pipeline (its [fit] makes its own check of the classes, for one), type
    inference, the splitter, the pandas and woodwork operations on rows, the
    component graph.  For each collaborator, [..._raises] gives the exception
    of a call that raises and [None] for a call that returns; the value of a
    call that returns is the one of [PipelineContract] and [Collaborators].
    A [fit] that raises has worked on its object before: [fit_raises] and
    [cg_fit_raises] also give what the pipeline, or the component graph, is
    left as.  [data_splitter.split(X, y)] can raise when it is called (line
    179, [split_call_raises]), or, as a generator, when the loop of line 189
    asks it for a fold: [split_raises] gives the number of folds it yields
    before it raises. *)
Class Failures (V PT CG P : Type) : Type := {
  clone_raises : P -> option exn;
  fit_raises : P -> DataFrame V -> Series V -> option (exn * P);
  predict_proba_raises : P -> DataFrame V -> option exn;
  infer_feature_types_X_raises : DataFrame V -> option exn;
  infer_feature_types_y_raises : Series V -> option exn;
  make_data_splitter_raises : DataFrame V -> Series V -> PT -> option exn;
  split_call_raises : Splitter V -> DataFrame V -> Series V -> option exn;
  split_raises : Splitter V -> DataFrame V -> Series V -> option (nat * exn);
  X_iloc_raises : DataFrame V -> list nat -> option exn;
  y_iloc_raises : Series V -> list nat -> option exn;
  X_loc_raises : DataFrame V -> list Z -> option exn;
  pd_concat_raises : list (DataFrame V) -> option exn;
  pd_concat_series_raises : list (Series V) -> option exn;
  concat_columns_raises : list (DataFrame V) -> option exn;
  np_unique_raises : Series V -> option exn;
  cg_fit_raises : CG -> DataFrame V -> Series V -> option (exn * CG);
}.

(** The same for the inherited prediction methods. *)
Class BaseFailures (V PT CG Obj : Type) : Type := {
  super_predict_raises :
    Ensemble V PT CG -> DataFrame V -> option Obj -> option exn;
  super_predict_proba_raises : Ensemble V PT CG -> DataFrame V -> option exn;
}.

(** Results of calls that may raise, outside the store. *)
Definition attempt_value {A : Type} (raises : option exn) (value : A)
  : exn + A :=
  match raises with
  | Some e => inl e
  | None => inr value
  end.

Definition bindE {A B : Type} (c : exn + A) (k : A -> exn + B) : exn + B :=
  match c with
  | inl e => inl e
  | inr a => k a
  end.

Notation "'let?' x ':=' c1 'in' c2" := (bindE c1 (fun x => c2))
  (at level 10, x pattern, c1 at level 100, c2 at level 200) : py_scope.

Fixpoint mapE {A B : Type} (f : A -> exn + B) (l : list A) : exn + list B :=
  match l with
  | [] => inr []
  | a :: l' =>
      let? b := f a in
      let? bs := mapE f l' in
      inr (b :: bs)
  end.

Definition outcome_of {A : Type} (r : exn + A) : outcome A :=
  match r with
  | inl e => Raised e
  | inr a => Done a
  end.

Module Raising.

Section Methods.

Context {V : Type} `{EqDecision V} {PT CG P : Type}.
Context `{PipelineContract V P} `{Collaborators V PT CG}.
Context `{Failures V PT CG P}.

Local Abbreviation Mo := (@M V PT CG P).

(** A call to a collaborator: it raises, or it returns its value. *)
Definition attempt {A : Type} (raises : option exn) (value : A) : Mo A :=
  match raises with
  | Some e => raise e
  | None => ret value
  end.

(** The calls on a pipeline object.  A call that raises leaves no trace:
    the log keeps the calls that returned. *)
Definition call_clone (pipeline : loc) : Mo loc :=
  let! p := get_pipe pipeline in
  attempt (clone_raises p) tt >>
  call_clone pipeline.

Definition call_fit (pipeline : loc) (X : DataFrame V) (y : Series V)
  : Mo unit :=
  let! p := get_pipe pipeline in
  match fit_raises p X y with
  | Some (e, p_left) => set_pipe pipeline p_left >> raise e
  | None => call_fit pipeline X y
  end.

Definition call_predict_proba (pipeline : loc) (X : DataFrame V) : Mo loc :=
  let! p := get_pipe pipeline in
  attempt (predict_proba_raises p X) tt >>
  call_predict_proba pipeline X.

(** Modelled from the spec: [_fit_input_pipelines(X, y, force_retrain=True)]
    of [EnsemblePipelineBase] ([ensemble_pipeline_base.py] is missing): the
    input pipelines are fitted directly on the full [(X, y)]. *)
Definition _fit_input_pipelines (X : DataFrame V) (y : Series V) : Mo unit :=
  let! slf := get_self in
  mapM (fun pipeline => call_fit pipeline X y) (input_pipelines slf) >>
  ret tt.

(** Lines 156-167. *)
Definition from_cv_valid_data (slf : Ensemble V PT CG) (y : Series V)
  : Mo (DataFrame V * Series V) :=
  let! metalearner_X :=
    mapM (fun item : string * list (DataFrame V * loc) =>
            let! pl_valid_preds :=
              mapM (fun Xp : DataFrame V * loc =>
                      let! r := _preds_processor Xp.2 item.1 in
                      get_dataframe r) item.2 in
            attempt (pd_concat_raises pl_valid_preds)
                    (pd_concat pl_valid_preds))
         (cv_valid_data slf) in
  let! metalearner_X :=
    attempt (concat_columns_raises metalearner_X)
            (concat_columns metalearner_X) in
  let metalearner_y := y in
  let! metalearner_X :=
    (if negb (Nat.eqb (df_len metalearner_X) (s_len metalearner_y))
     then attempt (X_loc_raises metalearner_X (s_index metalearner_y))
                  (X_loc metalearner_X (s_index metalearner_y))
     else ret metalearner_X) in
  ret (metalearner_X, metalearner_y).

(** Lines 194-197. *)
Definition fold_pipeline (X_train : DataFrame V) (y_train : Series V)
  (X_valid : DataFrame V) (pipeline : loc) : Mo (DataFrame V) :=
  call_fit pipeline X_train y_train >>
  let! pl_preds := call_predict_proba pipeline X_valid in
  let! name := call_name pipeline in
  let! r := _preds_processor pl_preds name in
  get_dataframe r.

(** Lines 190-200. *)
Definition one_fold (X : DataFrame V) (y : Series V) (pred_pls : list loc)
  (split : list nat * list nat) : Mo (DataFrame V * Series V) :=
  let '(train, valid) := split in
  let! X_train := attempt (X_iloc_raises X train) (X_iloc X train) in
  let! X_valid := attempt (X_iloc_raises X valid) (X_iloc X valid) in
  let! y_train := attempt (y_iloc_raises y train) (y_iloc y train) in
  let! y_valid := attempt (y_iloc_raises y valid) (y_iloc y valid) in
  let! fold_X := mapM (fold_pipeline X_train y_train X_valid) pred_pls in
  let! block := attempt (concat_columns_raises fold_X)
                        (concat_columns fold_X) in
  ret (block, y_valid).

(** The folds that the generator [data_splitter.split(X, y)] yields, and the
    exception it ends with, if any. *)
Definition yielded (data_splitter : Splitter V) (X : DataFrame V)
  (y : Series V) : list (list nat * list nat) * option exn :=
  match split_raises data_splitter X y with
  | Some (n, e) => (take n (data_splitter X y), Some e)
  | None => (data_splitter X y, None)
  end.

(** Lines 170-203.  The generator of the folds runs when the loop of line
    189 asks for a fold, after the clones were made. *)
Definition from_splits (slf : Ensemble V PT CG) (X : DataFrame V)
  (y : Series V) (data_splitter : option (Splitter V))
  : Mo (DataFrame V * Series V) :=
  let! data_splitter :=
    match data_splitter with
    | None =>
        attempt (make_data_splitter_raises X y ProblemTypes_BINARY)
                (make_data_splitter X y ProblemTypes_BINARY)
    | Some d => ret d
    end in
  attempt (split_call_raises data_splitter X y) tt >>
  let splits := yielded data_splitter X y in
  let! pred_pls := mapM call_clone (input_pipelines slf) in
  let! blocks := mapM (one_fold X y pred_pls) splits.1 in
  attempt splits.2 tt >>
  let! metalearner_X := attempt (pd_concat_raises blocks.*1)
                                (pd_concat blocks.*1) in
  let! metalearner_y := attempt (pd_concat_series_raises blocks.*2)
                                (pd_concat_series blocks.*2) in
  ret (metalearner_X, metalearner_y).

(** Lines 149-208.  The component graph is fitted in place before
    [np.unique] is called. *)
Definition fit_checked (X : DataFrame V) (y : Series V)
  (data_splitter : option (Splitter V)) (force_retrain : bool) : Mo unit :=
  let! fitted := _all_input_pipelines_fitted in
  (if negb fitted || force_retrain
   then _fit_input_pipelines X y
   else ret tt) >>
  let! slf := get_self in
  let! m :=
    (if negb (bool_decide (cv_valid_data slf = [])) && negb force_retrain
     then from_cv_valid_data slf y
     else from_splits slf X y data_splitter) in
  let '(metalearner_X, metalearner_y) := m in
  let! slf := get_self in
  let with_graph (cg : CG) :=
    mkEnsemble (problem_type slf) (input_pipelines slf) (cv_valid_data slf)
      cg (_classes_ slf) in
  match cg_fit_raises (component_graph slf) metalearner_X metalearner_y with
  | Some (e, cg_left) => set_self (with_graph cg_left) >> raise e
  | None =>
      set_self
        (with_graph (cg_fit (component_graph slf) metalearner_X metalearner_y))
  end >>
  let! classes := attempt (np_unique_raises metalearner_y)
                          (np_unique metalearner_y) in
  let! slf := get_self in
  set_self
    (mkEnsemble (problem_type slf) (input_pipelines slf) (cv_valid_data slf)
       (component_graph slf) (Some classes)).

Definition fit (X : DataFrame V) (y : Series V)
  (data_splitter : option (Splitter V)) (force_retrain : bool) : Mo unit :=
  let! X := attempt (infer_feature_types_X_raises X)
                    (infer_feature_types_X X) in
  let! y := attempt (infer_feature_types_y_raises y)
                    (infer_feature_types_y y) in
  let! slf := get_self in
  check_classes (problem_type slf) y >>
  fit_checked X y data_splitter force_retrain.

Definition transform (X : DataFrame V) : Mo (DataFrame V) :=
  let! fitted := _all_input_pipelines_fitted in
  if negb fitted
  then raise (ValueError needs_to_be_fitted)
  else
    let! slf := get_self in
    let! input_pipeline_preds :=
      mapM (fun pipeline =>
              let! pl_preds := call_predict_proba pipeline X in
              let! name := call_name pipeline in
              let! r := _preds_processor pl_preds name in
              get_dataframe r)
           (input_pipelines slf) in
    attempt (concat_columns_raises input_pipeline_preds)
            (concat_columns input_pipeline_preds).

End Methods.

Section Predictions.

Context {V : Type} `{EqDecision V} {PT CG P Obj : Type}.
Context `{PipelineContract V P} `{Collaborators V PT CG}.
Context `{Failures V PT CG P}.
Context `{BasePipeline V PT CG Obj} `{BaseFailures V PT CG Obj}.

Local Abbreviation Mo := (@M V PT CG P).

Definition _predict (X : DataFrame V) (objective : option Obj)
  : Mo (Series V) :=
  let! metalearner_X := transform X in
  let! slf := get_self in
  attempt (super_predict_raises slf metalearner_X objective)
          (super_predict slf metalearner_X objective).

Definition predict_proba (X : DataFrame V) (X_train : option (DataFrame V))
  (y_train : option (Series V)) : Mo (DataFrame V) :=
  let! metalearner_X := transform X in
  let! slf := get_self in
  attempt (super_predict_proba_raises slf metalearner_X)
          (super_predict_proba slf metalearner_X).

End Predictions.

End Raising.

(** ** What the methods give, read off the pipelines and the tables *)

Section RaisingReadings.

Context {V : Type} `{EqDecision V} {PT CG P : Type}.
Context `{PipelineContract V P} `{Collaborators V PT CG}.
Context `{Failures V PT CG P}.

(** What [_preds_processor] makes of a prediction that is a woodwork table,
    and its [ValueError] otherwise. *)
Definition reshape_reading (o : pyobj V) (pipeline_name : string)
  : exn + DataFrame V :=
  match o with
  | ODataFrame df => inr (spec_reshape df pipeline_name)
  | _ => inl (ValueError preds_not_dataframe)
  end.

(** One pipeline, in the state [p], asked for its prediction on [X]. *)
Definition prediction_reading (p : P) (X : DataFrame V) : exn + DataFrame V :=
  let? o := attempt_value (predict_proba_raises p X) (pl_predict_proba p X) in
  reshape_reading o (pl_name p).

(** [transform]. *)
Definition transform_reading (X : DataFrame V) (ps : list P)
  : exn + DataFrame V :=
  let? blocks := mapE (fun p => prediction_reading p X) ps in
  attempt_value (concat_columns_raises blocks) (concat_columns blocks).

(** One pipeline in one fold: its state after the fold, and its block. *)
Definition fold_pipeline_reading (X_train : DataFrame V) (y_train : Series V)
  (X_valid : DataFrame V) (q : P) : exn + (P * DataFrame V) :=
  let? q' := attempt_value (fst <$> fit_raises q X_train y_train)
                           (pl_fit q X_train y_train) in
  let? block := prediction_reading q' X_valid in
  inr (q', block).

(** One fold, from the states [qs] of the pipelines when it starts. *)
Definition fold_reading (X : DataFrame V) (y : Series V) (qs : list P)
  (split : list nat * list nat)
  : exn + (list P * (DataFrame V * Series V)) :=
  let? X_train := attempt_value (X_iloc_raises X split.1)
                                (X_iloc X split.1) in
  let? X_valid := attempt_value (X_iloc_raises X split.2)
                                (X_iloc X split.2) in
  let? y_train := attempt_value (y_iloc_raises y split.1)
                                (y_iloc y split.1) in
  let? y_valid := attempt_value (y_iloc_raises y split.2)
                                (y_iloc y split.2) in
  let? fitted := mapE (fold_pipeline_reading X_train y_train X_valid) qs in
  let? block := attempt_value (concat_columns_raises fitted.*2)
                              (concat_columns fitted.*2) in
  inr (fitted.*1, (block, y_valid)).

(** All the folds: every fold starts from the states the fold before has
    left. *)
Fixpoint folds_reading (X : DataFrame V) (y : Series V) (qs : list P)
  (splits : list (list nat * list nat))
  : exn + (list P * list (DataFrame V * Series V)) :=
  match splits with
  | [] => inr (qs, [])
  | split :: rest =>
      let? fold := fold_reading X y qs split in
      let? folds := folds_reading X y fold.1 rest in
      inr (folds.1, fold.2 :: folds.2)
  end.

(** The cross-validation of lines 170-203 over the input pipelines [ps]: the
    states the clones end in, and the training set of the metalearner. *)
Definition cv_reading (X : DataFrame V) (y : Series V)
  (data_splitter : option (Splitter V)) (ps : list P)
  : exn + (list P * (DataFrame V * Series V)) :=
  let? data_splitter :=
    match data_splitter with
    | None =>
        attempt_value (make_data_splitter_raises X y ProblemTypes_BINARY)
                      (make_data_splitter X y ProblemTypes_BINARY)
    | Some d => inr d
    end in
  let? _ := attempt_value (split_call_raises data_splitter X y) tt in
  let splits := Raising.yielded data_splitter X y in
  let? qs := mapE (fun p => attempt_value (clone_raises p) (pl_clone p)) ps in
  let? folds := folds_reading X y qs splits.1 in
  let? _ := attempt_value splits.2 tt in
  let? metalearner_X := attempt_value (pd_concat_raises folds.2.*1)
                                      (pd_concat folds.2.*1) in
  let? metalearner_y := attempt_value (pd_concat_series_raises folds.2.*2)
                                      (pd_concat_series folds.2.*2) in
  inr (folds.1, (metalearner_X, metalearner_y)).

(** Lines 156-167 over the tables of the store [fr]. *)
Definition cv_valid_reading (fr : gmap loc (pyobj V))
  (cvd : list (string * list (DataFrame V * loc))) (y : Series V)
  : exn + (DataFrame V * Series V) :=
  let? blocks :=
    mapE (fun item : string * list (DataFrame V * loc) =>
            let tables :=
              map (fun Xp : DataFrame V * loc =>
                     spec_reshape (stored_table fr Xp.2) item.1) item.2 in
            attempt_value (pd_concat_raises tables) (pd_concat tables))
         cvd in
  let? metalearner_X := attempt_value (concat_columns_raises blocks)
                                      (concat_columns blocks) in
  let? metalearner_X :=
    (if negb (Nat.eqb (df_len metalearner_X) (s_len y))
     then attempt_value (X_loc_raises metalearner_X (s_index y))
                        (X_loc metalearner_X (s_index y))
     else inr metalearner_X) in
  inr (metalearner_X, y).

(** Lines 205-207 on the training set [m]: the fitted component graph and
    the classes. *)
Definition metalearner_reading (cg : CG) (m : DataFrame V * Series V)
  : exn + (CG * list V) :=
  let? cg' := attempt_value (fst <$> cg_fit_raises cg m.1 m.2)
                            (cg_fit cg m.1 m.2) in
  let? classes := attempt_value (np_unique_raises m.2) (np_unique m.2) in
  inr (cg', classes).

End RaisingReadings.

(** ** The canonical enumeration and a runnable instance of the collaborators *)

(** Modelled from the spec: the members of [ProblemTypes]
    ([problem_types.py] is missing).  The specification names binary,
    multiclass and regression; the lookup by name is the one of a Python
    [Enum] whose member names are upper-case. *)
Inductive ProblemTypes : Type := BINARY | MULTICLASS | REGRESSION.

Definition ProblemTypes_getitem (name : string) : option ProblemTypes :=
  if String.eqb name "BINARY" then Some BINARY
  else if String.eqb name "MULTICLASS" then Some MULTICLASS
  else if String.eqb name "REGRESSION" then Some REGRESSION
  else None.

Module Sample.

(** Rows picked by position, as [iloc] does for positions in range. *)
Definition take_rows {A : Type} (l : list A) (positions : list nat) : list A :=
  omap (fun i => l !! i) positions.

Definition iloc_frame (X : DataFrame Z) (positions : list nat) : DataFrame Z :=
  mkDataFrame (take_rows (df_index X) positions)
    (map (fun cd : label * list (option Z) => (cd.1, take_rows cd.2 positions))
         (df_cols X)).

Definition iloc_series (y : Series Z) (positions : list nat) : Series Z :=
  mkSeries (take_rows (s_index y) positions) (take_rows (s_values y) positions).

(** Rows appended; the columns are those of the first block and the cells of
    the later blocks are taken by label. *)
Definition append_rows (blocks : list (DataFrame Z)) : DataFrame Z :=
  match blocks with
  | [] => mkDataFrame [] []
  | b :: _ =>
      mkDataFrame (concat (map df_index blocks))
        (map (fun c : label =>
                (c, concat (map (fun blk : DataFrame Z =>
                                   match list_find (fun cd => cd.1 = c)
                                           (df_cols blk) with
                                   | Some (_, (_, cells)) => cells
                                   | None => replicate (df_len blk) None
                                   end)
                                blocks)))
             (df_columns b))
  end.

Definition append_series (blocks : list (Series Z)) : Series Z :=
  mkSeries (concat (map s_index blocks)) (concat (map s_values blocks)).

Definition beside (blocks : list (DataFrame Z)) : DataFrame Z :=
  mkDataFrame (default [] (df_index <$> head blocks))
    (concat (map df_cols blocks)).

Definition sorted_unique (y : Series Z) : list Z :=
  merge_sort Z.le (remove_dups (omap id (s_values y))).

(** Two folds: the rows at even and at odd positions validate in turn. *)
Definition two_folds : Splitter Z :=
  fun X _ =>
    let rows := seq 0 (df_len X) in
    let ev := filter (fun i => Nat.even i) rows in
    let od := filter (fun i => Nat.odd i) rows in
    [(od, ev); (ev, od)].

(** Modelled from the spec: [is_binary] and [is_multiclass] of
    [problem_types/utils.py], which the ensemble imports and the sources
    lack: a problem type is binary (multiclass) when it is the member
    [BINARY] ([MULTICLASS]). *)
Definition binary_p (p : ProblemTypes) : bool :=
  match p with BINARY => true | _ => false end.

Definition multiclass_p (p : ProblemTypes) : bool :=
  match p with MULTICLASS => true | _ => false end.

(** The component graph remembers what it was fitted on. *)
#[global] Instance collaborators
  : Collaborators Z ProblemTypes (list (DataFrame Z * Series Z)) := {|
  is_binary := binary_p;
  is_multiclass := multiclass_p;
  ProblemTypes_BINARY := BINARY;
  infer_feature_types_X := id;
  infer_feature_types_y := id;
  make_data_splitter := fun _ _ _ => two_folds;
  X_iloc := iloc_frame;
  y_iloc := iloc_series;
  X_loc := fun X _ => X;
  pd_concat := append_rows;
  pd_concat_series := append_series;
  concat_columns := beside;
  np_unique := sorted_unique;
  cg_fit := fun cg X y => (cg ++ [(X, y)])%list;
|}.

(** A pipeline that remembers how many rows each of its [fit] calls saw and
    predicts one column per class. *)
Record toy : Type := mkToy {
  toy_name : string;
  toy_classes : list label;
  toy_fits : list nat;
}.

#[global] Instance toy_contract : PipelineContract Z toy := {|
  pl_name := toy_name;
  pl_is_fitted := fun p => negb (bool_decide (toy_fits p = []));
  pl_clone := fun p => mkToy (toy_name p) (toy_classes p) [];
  pl_fit := fun p X _ => mkToy (toy_name p) (toy_classes p)
                           (toy_fits p ++ [df_len X])%list;
  pl_predict_proba := fun p X =>
    ODataFrame
      (mkDataFrame (df_index X)
         (map (fun c => (c, replicate (df_len X)
                              (Some (Z.of_nat (length (toy_fits p))))))
              (toy_classes p)));
|}.

Definition X4 : DataFrame Z :=
  mkDataFrame [10; 11; 12; 13]
    [(LStr "f", [Some 1; Some 2; Some 3; Some 4])].

Definition y4 : Series Z :=
  mkSeries [10; 11; 12; 13] [Some 0; Some 1; Some 0; Some 1].

Definition ensemble0 (pt : ProblemTypes) (pls : list loc)
  : Ensemble Z ProblemTypes (list (DataFrame Z * Series Z)) :=
  mkEnsemble pt pls [] [] None.

(** Labels that are all missing. *)
Definition y_missing : Series Z :=
  mkSeries [10; 11; 12; 13] [None; None; None; None].

(** One unfitted binary pipeline named [rf] at location 0. *)
Definition s0 : State Z ProblemTypes (list (DataFrame Z * Series Z)) toy :=
  mkState ∅ {[ 0%nat := mkToy "rf" [LStr "no"; LStr "yes"] [] ]}
    (ensemble0 BINARY [0%nat]) [].

(** Predicted probabilities of a binary and of a three-class pipeline. *)
Definition preds2 : DataFrame Z :=
  mkDataFrame [10; 11]
    [(LStr "no", [Some 7; Some 1]); (LStr "yes", [Some 3; Some 9])].

Definition preds3 : DataFrame Z :=
  mkDataFrame [10; 11]
    [(LStr "a", [Some 5; Some 1]); (LStr "b", [Some 3; Some 2]);
     (LStr "c", [Some 2; Some 7])].

(** A table whose columns are already named by their positions. *)
Definition preds01 : DataFrame Z :=
  mkDataFrame [10; 11]
    [(LInt 0, [Some 7; Some 1]); (LInt 1, [Some 3; Some 9])].

(** A store that holds the three tables at the locations 0, 1 and 2. *)
Definition s_tables
  : State Z ProblemTypes (list (DataFrame Z * Series Z)) toy :=
  mkState {[ 0%nat := ODataFrame preds2; 1%nat := ODataFrame preds3;
             2%nat := ODataFrame preds01 ]}
    ∅ (ensemble0 BINARY []) [].

(** The binary pipeline, fitted on four rows, and a table left in the store
    by an earlier prediction. *)
Definition s_fitted
  : State Z ProblemTypes (list (DataFrame Z * Series Z)) toy :=
  mkState {[ 0%nat := ODataFrame preds2 ]}
    {[ 0%nat := mkToy "rf" [LStr "no"; LStr "yes"] [4%nat] ]}
    (ensemble0 BINARY [0%nat]) [].

(** One unfitted three-class pipeline in a multiclass ensemble. *)
Definition s0_multiclass
  : State Z ProblemTypes (list (DataFrame Z * Series Z)) toy :=
  mkState ∅ {[ 0%nat := mkToy "rf" [LStr "a"; LStr "b"; LStr "c"] [] ]}
    (ensemble0 MULTICLASS [0%nat]) [].

(** Objectives are left out of the sample: the inherited predictions read
    the number of fits of the component graph. *)
#[global] Instance base_pipeline
  : BasePipeline Z ProblemTypes (list (DataFrame Z * Series Z)) unit := {|
  super_predict := fun slf X _ =>
    mkSeries (df_index X)
      (replicate (df_len X)
         (Some (Z.of_nat (length (component_graph slf)))));
  super_predict_proba := fun slf X => X;
|}.

(** The fitted binary pipeline in an ensemble that was given the held-out
    predictions of two folds, stored at the locations 0 and 2. *)
Definition s_cv
  : State Z ProblemTypes (list (DataFrame Z * Series Z)) toy :=
  mkState {[ 0%nat := ODataFrame preds2; 1%nat := ODataFrame preds3;
             2%nat := ODataFrame preds01 ]}
    {[ 0%nat := mkToy "rf" [LStr "no"; LStr "yes"] [4%nat] ]}
    (mkEnsemble BINARY [0%nat]
       [("rf", [(X4, 0%nat); (X4, 2%nat)])] [] None) [].

(** The sample pipelines are binary classification pipelines: their [fit]
    makes the check of the classes on its own labels.  Side by side, tables
    must have different column names; there is nothing to concatenate in an
    empty list; [np.unique] does not sort missing labels; a row that [.loc]
    asks for must be in the index. *)
#[global] Instance failures
  : Failures Z ProblemTypes (list (DataFrame Z * Series Z)) toy := {|
  clone_raises := fun _ => None;
  fit_raises := fun p _ y =>
    if Nat.eqb (nunique y) 2 then None
    else Some (ValueError binary_requires, p);
  predict_proba_raises := fun _ _ => None;
  infer_feature_types_X_raises := fun _ => None;
  infer_feature_types_y_raises := fun _ => None;
  make_data_splitter_raises := fun _ _ _ => None;
  split_call_raises := fun _ _ _ => None;
  split_raises := fun _ _ _ => None;
  X_iloc_raises := fun _ _ => None;
  y_iloc_raises := fun _ _ => None;
  X_loc_raises := fun X rows =>
    if bool_decide (Forall (fun i => i ∈ df_index X) rows) then None
    else Some (KeyError "not in index");
  pd_concat_raises := fun blocks =>
    match blocks with
    | [] => Some (ValueError "No objects to concatenate")
    | _ => None
    end;
  pd_concat_series_raises := fun blocks =>
    match blocks with
    | [] => Some (ValueError "No objects to concatenate")
    | _ => None
    end;
  concat_columns_raises := fun blocks =>
    if bool_decide (NoDup (concat (map df_columns blocks))) then None
    else Some (ValueError "Duplicate column names");
  np_unique_raises := fun y =>
    if bool_decide (None ∈ s_values y) then Some (TypeError "NaN in labels")
    else None;
  cg_fit_raises := fun _ _ _ => None;
|}.

#[global] Instance base_failures
  : BaseFailures Z ProblemTypes (list (DataFrame Z * Series Z)) unit := {|
  super_predict_raises := fun _ _ _ => None;
  super_predict_proba_raises := fun _ _ => None;
|}.

(** Two folds: the first and the second half of the rows validate in turn. *)
Definition halves : Splitter Z :=
  fun X _ =>
    let n := df_len X in
    let first := seq 0 (n / 2) in
    let second := seq (n / 2) (n - n / 2) in
    [(second, first); (first, second)].

(** Labels whose halves both hold the two classes. *)
Definition y_mixed : Series Z :=
  mkSeries [10; 11; 12; 13] [Some 0; Some 1; Some 1; Some 0].

(** Two fitted pipelines of the same name. *)
Definition s_same_name
  : State Z ProblemTypes (list (DataFrame Z * Series Z)) toy :=
  mkState ∅
    {[ 0%nat := mkToy "rf" [LStr "no"; LStr "yes"] [4%nat];
       1%nat := mkToy "rf" [LStr "no"; LStr "yes"] [4%nat] ]}
    (ensemble0 BINARY [0%nat; 1%nat]) [].

End Sample.

(** * Properties *)

(** ** The problem-type resolver *)

Section ResolverFacts.

Context {E : Type}.
Variable getitem : string -> option E.

Local Abbreviation resolve := (handle_problem_types getitem).

(** The list built so far only ever grows at its end. *)
Lemma resolve_loop_acc (items acc : list (pyval E)) :
  resolve_loop getitem items acc =
  match resolve_loop getitem items [] with
  | inr l => inr (acc ++ l)%list
  | inl e => inl e
  end.
Proof.
  revert acc. induction items as [|v items IH]; intros acc; simpl.
  - by rewrite app_nil_r.
  - destruct v as [p|s|r|l]; simpl.
    + rewrite (IH (acc ++ _)%list), (IH [VEnum p]).
      destruct (resolve_loop getitem items []); [done|].
      by rewrite <- app_assoc.
    + destruct (getitem (upper s)) as [tp|]; [|done].
      rewrite (IH (acc ++ _)%list), (IH [VEnum tp]).
      destruct (resolve_loop getitem items []); [done|].
      by rewrite <- app_assoc.
    + apply IH.
    + apply IH.
Qed.

Lemma resolve_loop_skip (pre post acc : list (pyval E)) (x : pyval E) :
  is_str_or_enum x = false ->
  resolve_loop getitem (pre ++ x :: post) acc =
  resolve_loop getitem (pre ++ post) acc.
Proof.
  intros Hx. revert acc.
  induction pre as [|v pre IH]; intros acc; simpl.
  - destruct x; simpl in Hx; congruence.
  - destruct v as [p|s|r|l]; try apply IH.
    destruct (getitem (upper s)); [apply IH | done].
Qed.

Lemma resolve_loop_filter (items acc : list (pyval E)) :
  resolve_loop getitem items acc =
  resolve_loop getitem (List.filter is_str_or_enum items) acc.
Proof.
  revert acc. induction items as [|v items IH]; intros acc; [done|].
  destruct v as [p|s|r|l]; simpl; try apply IH.
  destruct (getitem (upper s)); [apply IH | done].
Qed.

Lemma resolve_loop_length (items acc out : list (pyval E)) :
  resolve_loop getitem items acc = inr out ->
  length out = (length acc + length (List.filter is_str_or_enum items))%nat.
Proof.
  revert acc. induction items as [|v items IH]; intros acc; simpl.
  - intros [= <-]. lia.
  - destruct v as [p|s|r|l]; simpl.
    + intros Hr. apply IH in Hr. rewrite length_app in Hr. simpl in Hr. lia.
    + destruct (getitem (upper s)); [|done].
      intros Hr. apply IH in Hr. rewrite length_app in Hr. simpl in Hr. lia.
    + apply IH.
    + apply IH.
Qed.

(** A member passed alone comes back as it is. *)
Lemma resolve_member (p : E) : resolve (VEnum p) = inr (VEnum p).
Proof. reflexivity. Qed.

(** A matching string passed alone comes back inside a list. *)
Lemma resolve_matching_str (s : string) (tp : E) :
  getitem (upper s) = Some tp ->
  resolve (VStr s) = inr (VList [VEnum tp]).
Proof. intros Hs. unfold handle_problem_types. simpl. by rewrite Hs. Qed.

Lemma resolve_unknown_str (s : string) :
  getitem (upper s) = None ->
  resolve (VStr s) = inl (KeyError (does_not_exist s)).
Proof. intros Hs. unfold handle_problem_types. simpl. by rewrite Hs. Qed.

(** A sequence of members and matching strings gives the members in the
    order of the input. *)
Lemma resolve_sequence_in_order (items out : list (pyval E)) :
  Forall2 (resolved_as getitem) items out ->
  resolve (VList items) = inr (VList out).
Proof.
  intros Hall. unfold handle_problem_types.
  enough (resolve_loop getitem items [] = inr out) as -> by done.
  induction Hall as [|v w items out Hv _ IH]; [done|].
  simpl. destruct v as [p|s|r|l]; simpl in Hv; try done.
  - subst w. rewrite resolve_loop_acc, IH. done.
  - destruct Hv as (tp & -> & ->). rewrite resolve_loop_acc, IH. done.
Qed.

End ResolverFacts.

(** C5 (defect of the code): a single string that names a member is not
    resolved to the member itself.  [handle_problem_types("binary")] wraps the
    string in a list and returns the one-element list [[ProblemTypes.BINARY]],
    whereas a member passed alone is returned as it is. *)
Theorem C5_single_string_comes_back_in_a_list :
  handle_problem_types ProblemTypes_getitem (VStr "binary")
    = inr (VList [VEnum BINARY]) /\
  handle_problem_types ProblemTypes_getitem (VStr "binary")
    <> inr (VEnum BINARY) /\
  handle_problem_types ProblemTypes_getitem (VEnum BINARY)
    = inr (VEnum BINARY).
Proof. repeat split. discriminate. Qed.

(** C6: a string that names no member once upper-cased makes the resolver
    raise a [KeyError] (a [LookupError]) whose message is
    [Problem type '<the string as given>' does not exist], and so carries the
    offending string; a string that names a member does not raise. *)
Theorem C6_unknown_string_raises_lookup_error
  {E : Type} (getitem : string -> option E) (s : string) :
  (getitem (upper s) = None ->
   exists e, handle_problem_types getitem (VStr s) = inl e /\
             is_LookupError e = true /\
             exn_msg e = "Problem type '" ++ s ++ "' does not exist" /\
             carries (exn_msg e) s) /\
  (forall tp, getitem (upper s) = Some tp ->
     exists v, handle_problem_types getitem (VStr s) = inr v) /\
  ((exists e, handle_problem_types getitem (VStr s) = inl e) <->
   getitem (upper s) = None).
Proof.
  split; [|split].
  - intros Hs. exists (KeyError (does_not_exist s)).
    split; [by apply resolve_unknown_str|].
    split; [done|]. split; [done|].
    by exists "Problem type '", "' does not exist".
  - intros tp Hs. eexists. by apply resolve_matching_str.
  - split.
    + intros [e He]. destruct (getitem (upper s)) as [tp|] eqn:Hs; [|done].
      by rewrite (resolve_matching_str getitem s tp Hs) in He.
    + intros Hs. eexists. by apply resolve_unknown_str.
Qed.

Lemma C6_witness_not_a_type :
  (exists e, handle_problem_types ProblemTypes_getitem (VStr "not_a_type")
               = inl e /\
             is_LookupError e = true /\
             exn_msg e = "Problem type 'not_a_type' does not exist" /\
             carries (exn_msg e) "not_a_type") /\
  (exists v, handle_problem_types ProblemTypes_getitem (VStr "Binary")
               = inr v).
Proof.
  split.
  - apply (C6_unknown_string_raises_lookup_error
             ProblemTypes_getitem "not_a_type"). reflexivity.
  - apply (C6_unknown_string_raises_lookup_error
             ProblemTypes_getitem "Binary") with (tp := BINARY). reflexivity.
Defined.

(** C7: the resolver is case-insensitive on strings.  Two strings that are
    equal once upper-cased have the same outcome: the same returned value, or
    a [KeyError] for both.  In particular ["BINARY"], ["binary"] and
    ["Binary"] resolve to the same value whenever the enumeration has a member
    named [BINARY]. *)
Theorem C7_resolver_is_case_insensitive
  {E : Type} (getitem : string -> option E) :
  (forall s1 s2 : string,
     upper s1 = upper s2 ->
     same_outcome (handle_problem_types getitem (VStr s1))
                  (handle_problem_types getitem (VStr s2)) /\
     (forall v, handle_problem_types getitem (VStr s1) = inr v ->
                handle_problem_types getitem (VStr s2) = inr v)) /\
  (forall b : E,
     getitem "BINARY" = Some b ->
     handle_problem_types getitem (VStr "BINARY") = inr (VList [VEnum b]) /\
     handle_problem_types getitem (VStr "binary") = inr (VList [VEnum b]) /\
     handle_problem_types getitem (VStr "Binary") = inr (VList [VEnum b])).
Proof.
  split.
  - intros s1 s2 Hup.
    destruct (getitem (upper s1)) as [tp|] eqn:H1.
    + assert (H2 : getitem (upper s2) = Some tp) by by rewrite <- Hup.
      rewrite (resolve_matching_str getitem s1 tp H1).
      rewrite (resolve_matching_str getitem s2 tp H2). done.
    + assert (H2 : getitem (upper s2) = None) by by rewrite <- Hup.
      rewrite (resolve_unknown_str getitem s1 H1).
      rewrite (resolve_unknown_str getitem s2 H2). done.
  - intros b Hb. repeat split; by apply resolve_matching_str.
Qed.

Lemma C7_witness_binary :
  same_outcome (handle_problem_types ProblemTypes_getitem (VStr "bInArY"))
               (handle_problem_types ProblemTypes_getitem (VStr "Binary")) /\
  handle_problem_types ProblemTypes_getitem (VStr "BINARY")
    = inr (VList [VEnum BINARY]) /\
  handle_problem_types ProblemTypes_getitem (VStr "binary")
    = inr (VList [VEnum BINARY]) /\
  handle_problem_types ProblemTypes_getitem (VStr "Binary")
    = inr (VList [VEnum BINARY]).
Proof.
  split.
  - apply (C7_resolver_is_case_insensitive ProblemTypes_getitem). reflexivity.
  - apply (C7_resolver_is_case_insensitive ProblemTypes_getitem). reflexivity.
Defined.

(** C10: in a sequence, an element that is neither a string nor a member is
    skipped silently.  Taking it out of the input changes nothing of the
    outcome, a sequence of such elements alone resolves to the empty list
    without an error, and a returned list has one entry per string or member
    of the input, so it can be shorter than the input. *)
Theorem C10_other_elements_are_skipped
  {E : Type} (getitem : string -> option E) :
  (forall (pre post : list (pyval E)) (x : pyval E),
     is_str_or_enum x = false ->
     handle_problem_types getitem (VList (pre ++ x :: post)) =
     handle_problem_types getitem (VList (pre ++ post))) /\
  (forall items : list (pyval E),
     Forall (fun x => is_str_or_enum x = false) items ->
     handle_problem_types getitem (VList items) = inr (VList [])) /\
  (forall (items : list (pyval E)) (out : pyval E),
     handle_problem_types getitem (VList items) = inr out ->
     exists types, out = VList types /\
       length types = length (List.filter is_str_or_enum items) /\
       (length types <= length items)%nat).
Proof.
  split; [|split].
  - intros pre post x Hx. unfold handle_problem_types.
    by rewrite resolve_loop_skip.
  - intros items Hall. unfold handle_problem_types.
    rewrite resolve_loop_filter.
    replace (List.filter is_str_or_enum items) with (@nil (pyval E)); [done|].
    induction Hall as [|x items Hx _ IH]; [done|]. simpl. by rewrite Hx.
  - intros items out. unfold handle_problem_types.
    destruct (resolve_loop getitem items []) as [e|types] eqn:Hr; [done|].
    intros [= <-]. exists types. split; [done|].
    apply resolve_loop_length in Hr. simpl in Hr.
    split; [done|]. rewrite Hr. apply List.filter_length_le.
Qed.

Lemma C10_witness_shorter_output :
  handle_problem_types ProblemTypes_getitem
    (VList [VStr "binary"; VOther "3"; VEnum REGRESSION]) =
  handle_problem_types ProblemTypes_getitem
    (VList [VStr "binary"; VEnum REGRESSION]) /\
  handle_problem_types ProblemTypes_getitem
    (VList [VOther "None"; VList [VStr "binary"]]) = inr (VList []) /\
  (exists types,
     VList [VEnum BINARY; VEnum REGRESSION] = VList types /\
     length types = 2%nat /\ (length types <= 3)%nat).
Proof.
  destruct (C10_other_elements_are_skipped ProblemTypes_getitem)
    as (Hskip & Hnone & Hlen).
  split; [|split].
  - apply (Hskip [VStr "binary"] [VEnum REGRESSION] (VOther "3")).
    reflexivity.
  - apply Hnone. repeat constructor.
  - apply (Hlen [VStr "binary"; VOther "3"; VEnum REGRESSION]).
    reflexivity.
Defined.

(** ** Column keys *)

Lemma string_of_uint_no_space (d : uint) :
  no_space (NilEmpty.string_of_uint d).
Proof. induction d; simpl; (split; [discriminate | assumption]) || exact I. Qed.

Lemma str_of_int_no_space (z : Z) : no_space (str_of_int z).
Proof.
  unfold str_of_int. destruct (Z.to_int z) as [d|d]; simpl.
  - apply string_of_uint_no_space.
  - split; [discriminate | apply string_of_uint_no_space].
Qed.

(** Different integers print differently: the numeral reads back. *)
Lemma str_of_int_inj (a b : Z) : str_of_int a = str_of_int b -> a = b.
Proof.
  unfold str_of_int. intros Hab. apply DecimalZ.to_int_inj.
  pose proof (NilEmpty.isi (Z.to_int a)) as Ha.
  pose proof (NilEmpty.isi (Z.to_int b)) as Hb.
  rewrite Hab in Ha. congruence.
Qed.

(** The first blank ends the numeral. *)
Lemma no_space_split (d1 d2 r1 r2 : string) :
  no_space d1 -> no_space d2 ->
  d1 ++ String " " r1 = d2 ++ String " " r2 -> d1 = d2 /\ r1 = r2.
Proof.
  revert d2. induction d1 as [|c d1 IH]; intros [|c' d2]; simpl.
  - intros _ _ [= ->]. done.
  - intros _ [Hc _] [= Hc' _]. by destruct Hc.
  - intros [Hc _] _ [= Hc' _]. by destruct Hc.
  - intros [_ H1] [_ H2] [= -> Hr]. destruct (IH d2 H1 H2 Hr) as [-> ->]. done.
Qed.

Lemma string_length_append (s t : string) :
  String.length (s ++ t) = (String.length s + String.length t)%nat.
Proof.
  induction s as [|c s IH]; [done|].
  change (S (String.length (s ++ t)) = S (String.length s + String.length t)).
  by rewrite IH.
Qed.

Lemma append_inv_tail (s1 s2 t : string) : s1 ++ t = s2 ++ t -> s1 = s2.
Proof.
  revert s2. induction s1 as [|c s1 IH]; intros [|c' s2]; simpl; intros Heq.
  - done.
  - apply (f_equal String.length) in Heq.
    rewrite !string_length_append in Heq. simpl in Heq. lia.
  - apply (f_equal String.length) in Heq.
    rewrite !string_length_append in Heq. simpl in Heq. lia.
  - injection Heq as -> Heq. by rewrite (IH s2 Heq).
Qed.

(** The key of a column tells its position and its pipeline. *)
Lemma col_key_inj (i j : Z) (n1 n2 : string) :
  col_key (LInt i) n1 = col_key (LInt j) n2 -> i = j /\ n1 = n2.
Proof.
  unfold col_key. simpl. intros [= Heq].
  apply no_space_split in Heq; try apply str_of_int_no_space.
  destruct Heq as [Hd Hn]. split.
  - by apply str_of_int_inj.
  - by apply append_inv_tail in Hn.
Qed.

(** ** The two dictionaries and the renamings *)

Section TableFacts.

Context {V : Type}.

Implicit Types (df : DataFrame V) (m : gmap label label).

Lemma fold_positional_notin (f : nat -> nat) (l : list label) m (c : label) :
  c ∉ l ->
  fold_left (fun (new_columns : gmap label label) (ic : nat * label) =>
               <[ic.2 := LInt (Z.of_nat ic.1)]> new_columns)
            (imap (fun j x => (f j, x)) l) m !! c = m !! c.
Proof.
  revert f m. induction l as [|x l IH]; intros f m Hc; [done|].
  rewrite imap_cons. simpl.
  apply not_elem_of_cons in Hc as [Hcx Hcl].
  rewrite (IH (f ∘ S)); [|done].
  by rewrite lookup_insert_ne.
Qed.

Lemma fold_positional_lookup (f : nat -> nat) (l : list label) m
  (c : label) (i : nat) :
  NoDup l -> l !! i = Some c ->
  fold_left (fun (new_columns : gmap label label) (ic : nat * label) =>
               <[ic.2 := LInt (Z.of_nat ic.1)]> new_columns)
            (imap (fun j x => (f j, x)) l) m !! c
  = Some (LInt (Z.of_nat (f i))).
Proof.
  revert f m i. induction l as [|x l IH]; intros f m i Hnd Hi; [done|].
  rewrite imap_cons. simpl. apply NoDup_cons in Hnd as [Hx Hnd].
  destruct i as [|i]; simpl in Hi.
  - injection Hi as ->.
    rewrite (fold_positional_notin (f ∘ S)); [|done].
    by rewrite lookup_insert_eq.
  - by rewrite (IH (f ∘ S) _ i).
Qed.

(** With pairwise distinct labels, [new_columns] sends every label to its
    position. *)
Lemma positional_dict_lookup (cols : list label) (c : label) (i : nat) :
  NoDup cols -> cols !! i = Some c ->
  positional_dict cols !! c = Some (LInt (Z.of_nat i)).
Proof. apply (fold_positional_lookup (fun j => j)). Qed.

Lemma ww_rename_positional df :
  NoDup (df_columns df) ->
  ww_rename (positional_dict (df_columns df)) df = spec_positional df.
Proof.
  intros Hnd. unfold ww_rename, spec_positional. f_equal.
  apply list_eq. intros i.
  rewrite list_lookup_imap, list_lookup_fmap.
  destruct (df_cols df !! i) as [[c d]|] eqn:Hi; [|done]. simpl.
  rewrite (positional_dict_lookup _ c i); [done|done|].
  unfold df_columns. by rewrite list_lookup_fmap, Hi.
Qed.

Lemma fold_key_lookup (name : string) (cols : list label) m (c : label) :
  fold_left (fun (d : gmap label label) (col : label) =>
               <[col := col_key col name]> d) cols m !! c
  = if decide (c ∈ cols) then Some (col_key c name) else m !! c.
Proof.
  revert m. induction cols as [|x cols IH]; intros m.
  - destruct (decide (c ∈ [])) as [Hc|_]; [|done].
    by apply not_elem_of_nil in Hc.
  - change (fold_left _ (x :: cols) m) with
      (fold_left (fun (d : gmap label label) (col : label) =>
                    <[col := col_key col name]> d) cols
                 (<[x := col_key x name]> m)).
    rewrite IH.
    destruct (decide (c ∈ cols)) as [Hin|Hnin];
      destruct (decide (c ∈ x :: cols)) as [Hin'|Hnin']; try done.
    + destruct Hnin'. by right.
    + apply elem_of_cons in Hin' as [->|Hin']; [|done].
      by rewrite lookup_insert_eq.
    + apply not_elem_of_cons in Hnin' as [Hne _].
      by rewrite lookup_insert_ne.
Qed.

(** The second renaming gives every column its key. *)
Lemma ww_rename_key_dict df (name : string) :
  ww_rename (key_dict (df_columns df) name) df =
  {| df_index := df_index df;
     df_cols := map (fun cd : label * list (option V) =>
                       (col_key cd.1 name, cd.2)) (df_cols df) |}.
Proof.
  unfold ww_rename. f_equal. apply map_ext_in. intros [c d] Hin. simpl.
  unfold key_dict. rewrite fold_key_lookup.
  rewrite decide_True; [done|].
  unfold df_columns. apply list_elem_of_fmap. exists (c, d).
  split; [done|]. by apply list_elem_of_In.
Qed.

Lemma df_columns_spec_positional df :
  df_columns (spec_positional df) = positions (length (df_cols df)).
Proof.
  unfold df_columns, spec_positional, positions. simpl.
  rewrite fmap_imap.
  apply (imap_seq_0 (df_cols df) (fun j => LInt (Z.of_nat j))).
Qed.

Lemma length_df_columns df : length (df_columns df) = length (df_cols df).
Proof. unfold df_columns. apply length_fmap. Qed.

(** With two columns, dropping the column labelled [0] leaves the second. *)
Lemma ww_drop_first_of_two df :
  length (df_cols df) = 2%nat ->
  ww_drop (LInt 0) (spec_positional df) =
  {| df_index := df_index df; df_cols := tail (df_cols (spec_positional df)) |}.
Proof.
  intros Hlen. unfold ww_drop, spec_positional. simpl.
  destruct (df_cols df) as [|[c0 d0] [|[c1 d1] [|? ?]]]; try done.
Qed.

End TableFacts.

(** ** One call of [_preds_processor] *)

Section ProcessorFacts.

Context {V PT CG P : Type}.

Implicit Types (s : State V PT CG P) (df : DataFrame V).

Lemma length_columns_renamed m df :
  length (df_columns (ww_rename m df)) = length (df_cols df).
Proof. unfold df_columns, ww_rename. simpl. by rewrite !length_map. Qed.

(** On any table the call returns.  It rewrites the object it was given,
    creates the result as a new object, and leaves every other object, the
    pipelines, the ensemble and the log alone. *)
Lemma preds_processor_eval s (preds : loc) (name : string) df :
  frames s !! preds = Some (ODataFrame df) ->
  exists (fr : gmap loc (pyobj V)) (r : loc),
    _preds_processor preds name s
      = (mkState fr (pipes s) (self s) (log s), Done r) /\
    fr !! preds = Some (ODataFrame (renamed_in_place df)) /\
    fr !! r = Some (ODataFrame (returned_table df name)) /\
    frames s !! r = None /\
    (forall l, l <> preds -> is_Some (frames s !! l) ->
               fr !! l = frames s !! l).
Proof.
  intros Hpreds.
  unfold _preds_processor, bindM, get_frame. rewrite Hpreds.
  fold (renamed_in_place df).
  unfold set_frame, get_dataframe, bindM, get_frame. simpl.
  rewrite lookup_insert_eq. simpl.
  unfold returned_table.
  set (mid := renamed_in_place df).
  set (fr1 := <[preds := ODataFrame mid]> (frames s)).
  assert (Hdom1 : forall l, is_Some (frames s !! l) -> l ∈ dom fr1).
  { intros l Hl. apply elem_of_dom. unfold fr1.
    destruct (decide (preds = l)) as [->|Hne].
    - rewrite lookup_insert_eq. by eexists.
    - by rewrite lookup_insert_ne. }
  assert (Hlast : forall (fr2 : gmap loc (pyobj V)) (kept : DataFrame V)
                    (src : loc),
            fr2 !! src = Some (ODataFrame kept) ->
            fr2 !! preds = Some (ODataFrame mid) ->
            (forall l, is_Some (frames s !! l) -> l ∈ dom fr2) ->
            (forall l, l <> preds -> is_Some (frames s !! l) ->
                       fr2 !! l = frames s !! l) ->
            exists fr r,
              (let! df2 := get_dataframe src in
               alloc_frame
                 (ODataFrame (ww_rename (key_dict (df_columns df2) name) df2)))
                (mkState fr2 (pipes s) (self s) (log s))
              = (mkState fr (pipes s) (self s) (log s), Done r) /\
              fr !! preds = Some (ODataFrame mid) /\
              fr !! r = Some
                (ODataFrame (ww_rename (key_dict (df_columns kept) name) kept))
              /\ frames s !! r = None /\
              (forall l, l <> preds -> is_Some (frames s !! l) ->
                         fr !! l = frames s !! l)).
  { intros fr2 kept src Hsrc Hp Hdom Hkeep.
    unfold get_dataframe, bindM, get_frame, alloc_frame. simpl.
    rewrite Hsrc. simpl.
    set (l2 := fresh (dom fr2)).
    assert (Hl2 : l2 ∉ dom fr2) by apply is_fresh.
    eexists _, l2. split; [reflexivity|].
    split; [|split; [|split]].
    - rewrite lookup_insert_ne; [done|].
      intros ->. destruct Hl2. apply elem_of_dom. by eexists.
    - by rewrite lookup_insert_eq.
    - destruct (frames s !! l2) eqn:Hl; [|done].
      destruct Hl2. apply Hdom. by eexists.
    - intros l Hne Hl.
      rewrite lookup_insert_ne by (intros ->; destruct Hl2; by apply Hdom).
      by apply Hkeep. }
  assert (Hkeep1 : forall l, l <> preds -> is_Some (frames s !! l) ->
                             fr1 !! l = frames s !! l).
  { intros l Hne _. unfold fr1. by rewrite lookup_insert_ne. }
  assert (Hp1 : fr1 !! preds = Some (ODataFrame mid)).
  { unfold fr1. by rewrite lookup_insert_eq. }
  destruct (Nat.eqb (length (df_columns mid)) 2) eqn:Hlen.
  - destruct (df_columns mid) as [|col0 cols] eqn:Hcols; [done|].
    unfold alloc_frame at 1. simpl. fold fr1.
    set (l1 := fresh (dom fr1)).
    assert (Hl1 : l1 ∉ dom fr1) by apply is_fresh.
    destruct (Hlast (<[l1 := ODataFrame (ww_drop col0 mid)]> fr1)
                    (ww_drop col0 mid) l1)
      as (fr & r & Hrun & Hrest).
    + by rewrite lookup_insert_eq.
    + rewrite lookup_insert_ne; [done|].
      intros ->. destruct Hl1. apply elem_of_dom. by eexists.
    + intros l Hl. rewrite dom_insert_L.
      apply elem_of_union_r. by apply Hdom1.
    + intros l Hne Hl.
      rewrite lookup_insert_ne by (intros ->; destruct Hl1; by apply Hdom1).
      by apply Hkeep1.
    + exists fr, r. split; [exact Hrun | exact Hrest].
  - unfold ret at 1. simpl. fold fr1.
    destruct (Hlast fr1 mid preds Hp1 Hp1 Hdom1 Hkeep1)
      as (fr & r & Hrun & Hrest).
    exists fr, r. split; [exact Hrun | exact Hrest].
Qed.

(** With pairwise distinct labels the two tables are those of the reshaping
    policy. *)
Lemma renamed_in_place_spec df :
  NoDup (df_columns df) -> renamed_in_place df = spec_positional df.
Proof. apply ww_rename_positional. Qed.

Lemma returned_table_spec df (name : string) :
  NoDup (df_columns df) -> returned_table df name = spec_reshape df name.
Proof.
  intros Hnd. unfold returned_table.
  rewrite renamed_in_place_spec by done.
  rewrite df_columns_spec_positional.
  unfold positions. rewrite length_map, length_seq.
  unfold spec_reshape. simpl. rewrite length_imap.
  destruct (Nat.eqb (length (df_cols df)) 2) eqn:Hlen.
  - apply Nat.eqb_eq in Hlen.
    destruct (df_cols df) as [|[c0 d0] [|[c1 d1] [|? ?]]] eqn:Hcols;
      try done.
    simpl. change (Z.of_nat 0) with 0.
    rewrite ww_drop_first_of_two by by rewrite Hcols.
    rewrite ww_rename_key_dict. simpl. by rewrite Hcols.
  - by rewrite ww_rename_key_dict.
Qed.

Lemma preds_processor_run s (preds : loc) (name : string) df :
  frames s !! preds = Some (ODataFrame df) ->
  NoDup (df_columns df) ->
  exists (fr : gmap loc (pyobj V)) (r : loc),
    _preds_processor preds name s
      = (mkState fr (pipes s) (self s) (log s), Done r) /\
    fr !! preds = Some (ODataFrame (spec_positional df)) /\
    fr !! r = Some (ODataFrame (spec_reshape df name)) /\
    frames s !! r = None /\
    (forall l, l <> preds -> is_Some (frames s !! l) ->
               fr !! l = frames s !! l).
Proof.
  intros Hpreds Hnd.
  rewrite <- (renamed_in_place_spec df Hnd).
  rewrite <- (returned_table_spec df name Hnd).
  by apply preds_processor_eval.
Qed.

(** A reference to anything but a table makes the call raise, and nothing
    changes. *)
Lemma preds_processor_not_a_table s (preds : loc) (name : string)
  (o : pyobj V) :
  frames s !! preds = Some o ->
  (forall df, o <> ODataFrame df) ->
  _preds_processor preds name s = (s, Raised (ValueError preds_not_dataframe)).
Proof.
  intros Hpreds Ho. unfold _preds_processor, bindM, get_frame.
  rewrite Hpreds. destruct o as [df| |]; try done. by destruct (Ho df).
Qed.

End ProcessorFacts.

(** ** The reshaping policy *)

Section ReshapeFacts.

Context {V : Type}.

Implicit Types (df : DataFrame V).

Lemma positions_NoDup (k : nat) : NoDup (positions k).
Proof.
  unfold positions. apply NoDup_fmap_2_strong; [|apply NoDup_seq].
  intros i j _ _ [= Hij]. lia.
Qed.

(** The columns that come out: position [1] alone for a table of two
    columns, every position otherwise, each under its key. *)
Lemma spec_reshape_columns df (name : string) :
  df_columns (spec_reshape df name) =
  map (fun i : nat => col_key (LInt (Z.of_nat i)) name)
      (if Nat.eqb (length (df_cols df)) 2 then [1%nat]
       else seq 0 (length (df_cols df))).
Proof.
  unfold df_columns, spec_reshape. simpl. rewrite length_imap.
  destruct (Nat.eqb (length (df_cols df)) 2) eqn:Hlen.
  - apply Nat.eqb_eq in Hlen.
    by destruct (df_cols df) as [|[c0 d0] [|[c1 d1] [|? ?]]].
  - apply list_eq. intros i.
    rewrite !list_lookup_fmap, list_lookup_imap.
    destruct (df_cols df !! i) as [[c d]|] eqn:Hi; simpl.
    + apply lookup_lt_Some in Hi. by rewrite lookup_seq_lt.
    + apply lookup_ge_None in Hi. by rewrite lookup_seq_ge.
Qed.

Lemma spec_reshape_NoDup df (name : string) :
  NoDup (df_columns (spec_reshape df name)).
Proof.
  rewrite spec_reshape_columns.
  apply NoDup_fmap_2_strong.
  - intros i j _ _ Hij. apply col_key_inj in Hij as [Hij _]. lia.
  - destruct (Nat.eqb _ 2); [|apply NoDup_seq].
    apply NoDup_singleton.
Qed.

(** Every column that comes out is a column of the input, under the key of
    its position there. *)
Lemma spec_reshape_lookup df (name : string) (j : nat) (c : label)
  (d : list (option V)) :
  df_cols (spec_reshape df name) !! j = Some (c, d) ->
  exists (i : nat) (c0 : label),
    c = col_key (LInt (Z.of_nat i)) name /\ df_cols df !! i = Some (c0, d).
Proof.
  unfold spec_reshape. simpl. rewrite length_imap.
  rewrite list_lookup_fmap.
  destruct (Nat.eqb (length (df_cols df)) 2) eqn:Hlen.
  - apply Nat.eqb_eq in Hlen.
    destruct (df_cols df) as [|[c0 d0] [|[c1 d1] [|? ?]]]; try done.
    destruct j as [|j]; [|done]. simpl.
    intros [= <- <-]. by exists 1%nat, c1.
  - rewrite list_lookup_imap.
    destruct (df_cols df !! j) as [[c0 d0]|] eqn:Hj; [|done]. simpl.
    intros [= <- <-]. by exists j, c0.
Qed.

Lemma spec_reshape_length df (name : string) :
  length (df_columns (spec_reshape df name)) =
  if Nat.eqb (length (df_cols df)) 2 then 1%nat else length (df_cols df).
Proof.
  rewrite spec_reshape_columns, length_map.
  destruct (Nat.eqb _ 2); [done | apply length_seq].
Qed.

End ReshapeFacts.

(** C3: on a woodwork table (pairwise distinct labels) and a pipeline name,
    [_preds_processor] returns; it first names the columns of the table by
    their positions [0..K-1]; a table of two columns gives one column, its
    second, a table of [K > 2] columns gives [K]; every column of the result
    is a column of the input under the key made of its position and the
    pipeline's name ([Col <position> <name>.x]); the keys of the result are
    pairwise distinct, and none of them is a key of a pipeline with another
    name. *)
Theorem C3_reshape_policy {V PT CG P : Type} (s : State V PT CG P)
  (preds : loc) (pipeline_name : string) (df : DataFrame V) :
  frames s !! preds = Some (ODataFrame df) ->
  NoDup (df_columns df) ->
  exists (s' : State V PT CG P) (r : loc) (mid out : DataFrame V),
    _preds_processor preds pipeline_name s = (s', Done r) /\
    frames s' !! preds = Some (ODataFrame mid) /\
    df_columns mid = positions (length (df_columns df)) /\
    frames s' !! r = Some (ODataFrame out) /\
    (length (df_columns df) = 2%nat -> length (df_columns out) = 1%nat) /\
    ((2 < length (df_columns df))%nat ->
     length (df_columns out) = length (df_columns df)) /\
    (forall (j : nat) (c : label) (d : list (option V)),
       df_cols out !! j = Some (c, d) ->
       exists (i : nat) (c0 : label),
         c = col_key (LInt (Z.of_nat i)) pipeline_name /\
         c = LStr ("Col " ++ str_of_int (Z.of_nat i) ++ " "
                     ++ pipeline_name ++ ".x") /\
         df_cols df !! i = Some (c0, d)) /\
    NoDup (df_columns out) /\
    (forall (other : string) (j : Z) (c : label),
       other <> pipeline_name -> c ∈ df_columns out ->
       c <> col_key (LInt j) other) /\
    (length (df_columns df) = 2%nat ->
     df_cols out = map (fun cd : label * list (option V) =>
                          (col_key (LInt 1) pipeline_name, cd.2))
                       (tail (df_cols df))) /\
    (length (df_columns df) <> 2%nat ->
     df_cols out = imap (fun (i : nat) (cd : label * list (option V)) =>
                           (col_key (LInt (Z.of_nat i)) pipeline_name, cd.2))
                        (df_cols df)).
Proof.
  intros Hpreds Hnd.
  destruct (preds_processor_run s preds pipeline_name df Hpreds Hnd)
    as (fr & r & Hrun & Hmid & Hout & _ & _).
  eexists _, r, (spec_positional df), (spec_reshape df pipeline_name).
  split; [exact Hrun|]. simpl.
  split; [exact Hmid|].
  split; [by rewrite df_columns_spec_positional, length_df_columns|].
  split; [exact Hout|].
  rewrite spec_reshape_length, length_df_columns.
  split; [by intros ->|].
  split.
  { intros Hlen. destruct (Nat.eqb_spec (length (df_cols df)) 2); [lia|done]. }
  split.
  { intros j c d Hj.
    destruct (spec_reshape_lookup df pipeline_name j c d Hj)
      as (i & c0 & -> & Hi).
    by exists i, c0. }
  split; [apply spec_reshape_NoDup|].
  split.
  { intros other j c Hother Hc ->.
    rewrite spec_reshape_columns in Hc.
    apply list_elem_of_fmap in Hc as (i & Hkey & _).
    apply col_key_inj in Hkey as [_ Hname]. by destruct Hother. }
  unfold spec_reshape. simpl. rewrite length_imap. split.
  - intros Hlen. rewrite Hlen. simpl.
    by destruct (df_cols df) as [|[c0 d0] [|[c1 d1] [|? ?]]].
  - intros Hlen. apply Nat.eqb_neq in Hlen. rewrite Hlen.
    apply list_eq. intros i.
    rewrite list_lookup_fmap, !list_lookup_imap.
    by destruct (df_cols df !! i) as [[c d]|].
Qed.

Lemma C3_witness_two_and_three_columns :
  (exists s' r mid out,
     _preds_processor 0%nat "rf" Sample.s_tables = (s', Done r) /\
     frames s' !! 0%nat = Some (ODataFrame mid) /\
     df_columns mid = [LInt 0; LInt 1] /\
     frames s' !! r = Some (ODataFrame out) /\
     df_columns out = [LStr "Col 1 rf.x"]) /\
  (exists s' r out,
     _preds_processor 1%nat "xgb" Sample.s_tables = (s', Done r) /\
     frames s' !! r = Some (ODataFrame out) /\
     df_columns out =
       [LStr "Col 0 xgb.x"; LStr "Col 1 xgb.x"; LStr "Col 2 xgb.x"]).
Proof.
  split.
  - destruct (C3_reshape_policy Sample.s_tables 0%nat "rf" Sample.preds2)
      as (s' & r & mid & out & Hrun & Hmid & Hcols & Hout & _).
    + reflexivity.
    + refine (bool_decide_unpack _ _). vm_compute. exact I.
    + exists s', r, mid, out. repeat split; try done.
      vm_compute in Hrun. injection Hrun as <- <-.
      vm_compute in Hout. by injection Hout as <-.
  - destruct (C3_reshape_policy Sample.s_tables 1%nat "xgb" Sample.preds3)
      as (s' & r & mid & out & Hrun & _ & _ & Hout & _).
    + reflexivity.
    + refine (bool_decide_unpack _ _). vm_compute. exact I.
    + exists s', r, out. repeat split; try done.
      vm_compute in Hrun. injection Hrun as <- <-.
      vm_compute in Hout. by injection Hout as <-.
Defined.

(** ** Tables that are labelled by positions already *)

Section PositionalFacts.

Context {V : Type}.

(** A table whose labels are the positions already is its own renaming. *)
Lemma spec_positional_fixed (df : DataFrame V) :
  df_columns df = positions (length (df_columns df)) ->
  spec_positional df = df.
Proof.
  intros Hcols. destruct df as [idx cols]. unfold spec_positional. simpl.
  f_equal. unfold df_columns, positions in Hcols. simpl in Hcols.
  apply list_eq. intros i. rewrite list_lookup_imap.
  destruct (cols !! i) as [[c d]|] eqn:Hi; [|done]. simpl.
  assert (Hc : cols.*1 !! i = Some c) by by rewrite list_lookup_fmap, Hi.
  rewrite Hcols in Hc. rewrite list_lookup_fmap in Hc.
  destruct (seq 0 (length cols.*1) !! i) as [j|] eqn:Hj; [|done].
  apply lookup_seq in Hj as [-> _]. simpl in Hc. by injection Hc as <-.
Qed.

End PositionalFacts.

(** C9, as the code has it: [_preds_processor] renames the table it is given
    in place.  After the call the object behind [preds] has its columns
    named by their positions [0..K-1] (same rows, same cells), and the result
    is another object, new in the store.  The object behind [preds] is not
    what it was exactly when its labels were not the positions already. *)
Theorem C9_preds_processor_renames_in_place {V PT CG P : Type}
  (s : State V PT CG P) (preds : loc) (pipeline_name : string)
  (df : DataFrame V) :
  frames s !! preds = Some (ODataFrame df) ->
  NoDup (df_columns df) ->
  exists (s' : State V PT CG P) (r : loc) (mid out : DataFrame V),
    _preds_processor preds pipeline_name s = (s', Done r) /\
    frames s' !! preds = Some (ODataFrame mid) /\
    df_columns mid = positions (length (df_columns df)) /\
    map snd (df_cols mid) = map snd (df_cols df) /\
    df_index mid = df_index df /\
    r <> preds /\
    frames s !! r = None /\
    frames s' !! r = Some (ODataFrame out) /\
    (frames s' !! preds <> frames s !! preds
     <-> df_columns df <> positions (length (df_columns df))).
Proof.
  intros Hpreds Hnd.
  destruct (preds_processor_run s preds pipeline_name df Hpreds Hnd)
    as (fr & r & Hrun & Hmid & Hout & Hnew & _).
  eexists _, r, (spec_positional df), (spec_reshape df pipeline_name).
  split; [exact Hrun|]. simpl.
  split; [exact Hmid|].
  split; [by rewrite df_columns_spec_positional, length_df_columns|].
  split.
  { unfold spec_positional. simpl. apply list_eq. intros i.
    rewrite !list_lookup_fmap, list_lookup_imap.
    by destruct (df_cols df !! i). }
  split; [done|].
  split; [intros ->; congruence|].
  split; [exact Hnew|].
  split; [exact Hout|].
  rewrite Hmid, Hpreds. split.
  - intros Hne Hcols. apply Hne. by rewrite spec_positional_fixed.
  - intros Hne Heq. injection Heq as Heq. apply Hne. rewrite <- Heq at 1.
    by rewrite df_columns_spec_positional, length_df_columns.
Qed.

Lemma C9_witness_labels_replaced :
  exists s' r mid,
    _preds_processor 0%nat "rf" Sample.s_tables = (s', Done r) /\
    frames s' !! 0%nat = Some (ODataFrame mid) /\
    df_columns mid = [LInt 0; LInt 1] /\
    r <> 0%nat /\
    frames s' !! 0%nat <> frames Sample.s_tables !! 0%nat.
Proof.
  destruct (C9_preds_processor_renames_in_place
              Sample.s_tables 0%nat "rf" Sample.preds2)
    as (s' & r & mid & out & Hrun & Hmid & Hcols & _ & _ & Hr & _ & _ & Hne).
  - reflexivity.
  - refine (bool_decide_unpack _ _). vm_compute. exact I.
  - exists s', r, mid. repeat split; try done.
    apply Hne. vm_compute. discriminate.
Defined.

(** C9, as stated, fails: the table at location 2 of [Sample.s_tables] has
    the labels 0 and 1 already; the call returns, and the table behind
    [preds] is left unchanged. *)
Lemma C9_counterexample_positional_labels :
  exists s' r,
    _preds_processor 2%nat "rf" Sample.s_tables = (s', Done r) /\
    frames Sample.s_tables !! 2%nat = Some (ODataFrame Sample.preds01) /\
    ~ (frames s' !! 2%nat <> frames Sample.s_tables !! 2%nat).
Proof.
  eexists _, _. split; [by vm_compute|]. split; [done|].
  intros Hne. apply Hne. by vm_compute.
Qed.

(** ** What the methods can raise *)

Section RaiseFacts.

Context {V : Type} `{EqDecision V} {PT CG P : Type}.
Context `{PipelineContract V P} `{Collaborators V PT CG}.

Local Abbreviation Mo := (@M V PT CG P).

Lemma bindM_done {A B : Type} (c : Mo A) (k : A -> Mo B)
  (s s' : State V PT CG P) (a : A) :
  c s = (s', Done a) -> bindM c k s = k a s'.
Proof. intros Hc. unfold bindM. by rewrite Hc. Qed.

Lemma bindM_raised {A B : Type} (c : Mo A) (k : A -> Mo B)
  (s s' : State V PT CG P) (e : exn) :
  c s = (s', Raised e) -> bindM c k s = (s', Raised e).
Proof. intros Hc. unfold bindM. by rewrite Hc. Qed.

Lemma raises_bind {A B : Type} (c : Mo A) (k : A -> Mo B)
  (ok : exn -> Prop) :
  raises_only c ok -> (forall a, raises_only (k a) ok) ->
  raises_only (bindM c k) ok.
Proof.
  intros Hc Hk s s' e. unfold bindM.
  destruct (c s) as [s1 [a|e1|]] eqn:Hcs.
  - apply Hk.
  - intros [= <- <-]. by apply (Hc s s1).
  - done.
Qed.

Lemma raises_mapM {A B : Type} (f : A -> Mo B) (l : list A)
  (ok : exn -> Prop) :
  (forall a, raises_only (f a) ok) -> raises_only (mapM f l) ok.
Proof.
  intros Hf. induction l as [|a l IH]; simpl.
  - by intros s s' e.
  - apply raises_bind; [apply Hf|]. intros b.
    apply raises_bind; [apply IH|]. by intros bs s s' e.
Qed.

Lemma raises_ret {A : Type} (a : A) (ok : exn -> Prop) :
  raises_only (ret a : Mo A) ok.
Proof. by intros s s' e. Qed.

Lemma raises_get_frame (l : loc) (ok : exn -> Prop) :
  raises_only (get_frame l : Mo _) ok.
Proof. intros s s' e. unfold get_frame. by destruct (frames s !! l). Qed.

Lemma raises_get_dataframe (l : loc) (ok : exn -> Prop) :
  raises_only (get_dataframe l : Mo _) ok.
Proof.
  apply raises_bind; [apply raises_get_frame|].
  intros [df| |]; by intros s s' e.
Qed.

Lemma raises_get_pipe (l : loc) (ok : exn -> Prop) :
  raises_only (get_pipe l : Mo _) ok.
Proof. intros s s' e. unfold get_pipe. by destruct (pipes s !! l). Qed.

Lemma raises_call_fit (l : loc) (X : DataFrame V) (y : Series V)
  (ok : exn -> Prop) :
  raises_only (call_fit l X y : Mo _) ok.
Proof.
  apply raises_bind; [apply raises_get_pipe|]. intros p.
  apply raises_bind; by intros s s' e.
Qed.

Lemma raises_call_clone (l : loc) (ok : exn -> Prop) :
  raises_only (call_clone l : Mo _) ok.
Proof.
  apply raises_bind; [apply raises_get_pipe|]. intros p.
  apply raises_bind; [by intros s s' e|]. intros new.
  apply raises_bind; by intros s s' e.
Qed.

Lemma raises_call_predict_proba (l : loc) (X : DataFrame V)
  (ok : exn -> Prop) :
  raises_only (call_predict_proba l X : Mo _) ok.
Proof.
  apply raises_bind; [apply raises_get_pipe|]. intros p.
  apply raises_bind; by intros s s' e.
Qed.

Lemma raises_call_name (l : loc) (ok : exn -> Prop) :
  raises_only (call_name l : Mo _) ok.
Proof.
  apply raises_bind; [apply raises_get_pipe|]. by intros p s s' e.
Qed.

(** The only thing [_preds_processor] raises is its own [ValueError]. *)
Lemma raises_preds_processor (preds : loc) (name : string) :
  raises_only (_preds_processor preds name : Mo _)
    (fun e => e = ValueError preds_not_dataframe).
Proof.
  apply raises_bind; [apply raises_get_frame|].
  intros [df| |]; try (intros s s' e [= _ <-]; done).
  apply raises_bind; [by intros s s' e|]. intros _.
  apply raises_bind; [apply raises_get_dataframe|]. intros df1.
  apply raises_bind.
  - destruct (Nat.eqb _ 2); [|apply raises_ret].
    destruct (df_columns df1); by intros s s' e.
  - intros preds1.
    apply raises_bind; [apply raises_get_dataframe|]. by intros df2 s s' e.
Qed.

Lemma raises_all_input_pipelines_fitted (ok : exn -> Prop) :
  raises_only (_all_input_pipelines_fitted : Mo _) ok.
Proof.
  apply raises_bind; [by intros s s' e|]. intros slf.
  apply raises_bind; [|by intros ps s s' e].
  apply raises_mapM. intros l. apply raises_get_pipe.
Qed.

Lemma raises_processed (pl_preds : Mo loc) (name : Mo string) :
  raises_only pl_preds (fun e => e = ValueError preds_not_dataframe) ->
  raises_only name (fun e => e = ValueError preds_not_dataframe) ->
  raises_only
    (let! p := pl_preds in
     let! n := name in
     let! r := _preds_processor p n in
     get_dataframe r)
    (fun e => e = ValueError preds_not_dataframe).
Proof.
  intros Hp Hn.
  apply raises_bind; [done|]. intros p.
  apply raises_bind; [done|]. intros n.
  apply raises_bind; [apply raises_preds_processor|]. intros r.
  apply raises_get_dataframe.
Qed.

(** After the check of the classes, [fit] raises nothing but the
    [ValueError] of [_preds_processor]. *)
Lemma raises_from_cv_valid_data (slf : Ensemble V PT CG) (y : Series V) :
  raises_only (from_cv_valid_data slf y : Mo _)
    (fun e => e = ValueError preds_not_dataframe).
Proof.
  apply raises_bind; [|by intros m s s' e].
  apply raises_mapM. intros item.
  apply raises_bind; [|by intros m s s' e].
  apply raises_mapM. intros Xp.
  apply raises_bind; [apply raises_preds_processor|]. intros r.
  apply raises_get_dataframe.
Qed.

Lemma raises_from_splits (slf : Ensemble V PT CG) (X : DataFrame V)
  (y : Series V) (data_splitter : option (Splitter V)) :
  raises_only (from_splits slf X y data_splitter : Mo _)
    (fun e => e = ValueError preds_not_dataframe).
Proof.
  apply raises_bind; [apply raises_mapM; intros l; apply raises_call_clone|].
  intros pred_pls.
  apply raises_bind; [|by intros m s s' e].
  apply raises_mapM. intros [train valid].
  apply raises_bind; [|by intros m s s' e].
  apply raises_mapM. intros pipeline.
  apply raises_bind; [apply raises_call_fit|]. intros _.
  apply raises_processed;
    [apply raises_call_predict_proba | apply raises_call_name].
Qed.

Lemma raises_transform (X : DataFrame V) :
  raises_only (transform X : Mo _)
    (fun e => e = ValueError needs_to_be_fitted \/
              e = ValueError preds_not_dataframe).
Proof.
  apply raises_bind; [apply raises_all_input_pipelines_fitted|].
  intros fitted. destruct fitted; simpl.
  - apply raises_bind; [by intros s s' e|]. intros slf.
    apply raises_bind; [|by intros m s s' e].
    apply raises_mapM. intros pipeline s s' e Hr. right.
    revert s s' e Hr.
    apply raises_processed;
      [apply raises_call_predict_proba | apply raises_call_name].
  - intros s s' e [= _ <-]. by left.
Qed.

End RaiseFacts.

(** ** The check of the classes in [fit] *)

Section FitFacts.

Context {V : Type} `{EqDecision V} {PT CG P : Type}.
Context `{PipelineContract V P} `{Collaborators V PT CG}.

Local Abbreviation Mo := (@M V PT CG P).

(** What [check_classes] does, case by case. *)
Lemma check_classes_cases (pt : PT) (y : Series V) (s : State V PT CG P) :
  check_classes pt y s =
  if is_binary pt && negb (Nat.eqb (nunique y) 2)
  then (s, Raised (ValueError binary_requires))
  else if is_multiclass pt
          && (Nat.eqb (nunique y) 1 || Nat.eqb (nunique y) 2)
  then (s, Raised (ValueError multiclass_requires))
  else (s, Done tt).
Proof.
  unfold check_classes.
  destruct (is_binary pt && negb (Nat.eqb (nunique y) 2)); [done|].
  replace (bool_decide (nunique y ∈ [1%nat; 2%nat]))
    with (Nat.eqb (nunique y) 1 || Nat.eqb (nunique y) 2).
  - by destruct (is_multiclass pt && _).
  - symmetry. destruct (Nat.eqb_spec (nunique y) 1) as [->|H1]; [done|].
    destruct (Nat.eqb_spec (nunique y) 2) as [->|H2]; [done|].
    apply bool_decide_eq_false. intros Hin.
    apply elem_of_cons in Hin as [?|Hin]; [done|].
    apply elem_of_cons in Hin as [?|Hin]; [done|].
    by apply not_elem_of_nil in Hin.
Qed.

(** After the check, [fit] raises nothing but the [ValueError] of
    [_preds_processor]. *)
Lemma raises_fit_checked (X : DataFrame V) (y : Series V)
  (data_splitter : option (Splitter V)) (force_retrain : bool) :
  raises_only (fit_checked X y data_splitter force_retrain : Mo _)
    (fun e => e = ValueError preds_not_dataframe).
Proof.
  apply raises_bind; [apply raises_all_input_pipelines_fitted|].
  intros fitted. apply raises_bind.
  { destruct (negb fitted || force_retrain); [|apply raises_ret].
    apply raises_bind; [by intros s s' e|]. intros slf.
    apply raises_bind; [|by intros m s s' e].
    apply raises_mapM. intros l. apply raises_call_fit. }
  intros _. apply raises_bind; [by intros s s' e|]. intros slf.
  apply raises_bind.
  { destruct (_ && _);
      [apply raises_from_cv_valid_data | apply raises_from_splits]. }
  intros [mX my]. apply raises_bind; by intros s s' e.
Qed.

(** Once the check has passed, [fit] goes on with line 149. *)
Lemma fit_after_check (X : DataFrame V) (y : Series V)
  (data_splitter : option (Splitter V)) (force_retrain : bool)
  (s : State V PT CG P) :
  check_classes (problem_type (self s)) (infer_feature_types_y y) s
    = (s, Done tt) ->
  fit X y data_splitter force_retrain s =
  fit_checked (infer_feature_types_X X) (infer_feature_types_y y)
    data_splitter force_retrain s.
Proof.
  intros Hcheck. unfold fit.
  rewrite (bindM_done get_self _ s s (self s)) by done.
  by rewrite (bindM_done _ _ s s tt Hcheck).
Qed.

End FitFacts.

(** ** [fit] when the collaborators may raise *)

Section RaisingFitFacts.

Context {V : Type} `{EqDecision V} {PT CG P : Type}.
Context `{PipelineContract V P} `{Collaborators V PT CG}.
Context `{Failures V PT CG P}.

(** [fit] up to the check of the classes: type inference, then the check,
    and line 149 when both have passed. *)
Lemma fit_up_to_check (X : DataFrame V) (y : Series V)
  (data_splitter : option (Splitter V)) (force_retrain : bool)
  (s : State V PT CG P) :
  Raising.fit X y data_splitter force_retrain s =
  match infer_feature_types_X_raises X with
  | Some e => (s, Raised e)
  | None =>
      match infer_feature_types_y_raises y with
      | Some e => (s, Raised e)
      | None =>
          if is_binary (problem_type (self s))
             && negb (Nat.eqb (nunique (infer_feature_types_y y)) 2)
          then (s, Raised (ValueError binary_requires))
          else if is_multiclass (problem_type (self s))
                  && (Nat.eqb (nunique (infer_feature_types_y y)) 1
                      || Nat.eqb (nunique (infer_feature_types_y y)) 2)
          then (s, Raised (ValueError multiclass_requires))
          else Raising.fit_checked (infer_feature_types_X X)
                 (infer_feature_types_y y) data_splitter force_retrain s
      end
  end.
Proof.
  unfold Raising.fit, Raising.attempt.
  destruct (infer_feature_types_X_raises X) as [e|]; [done|].
  destruct (infer_feature_types_y_raises y) as [e|]; [done|].
  unfold bindM at 1. simpl. unfold bindM at 1. simpl.
  unfold bindM at 1. simpl. unfold bindM at 1.
  rewrite check_classes_cases.
  destruct (is_binary _ && _); [done|].
  by destruct (is_multiclass _ && _).
Qed.

End RaisingFitFacts.

(** C1, as the code has it: in an ensemble whose problem type is binary (and
    so not multiclass), the check of lines 142-143 raises the [ValueError] of
    the class count exactly when [y] (after type inference) does not have
    exactly 2 distinct values, and it passes exactly when [y] has 2.  When the
    check raises, [fit(X, y)] raises this error and nothing has changed: no
    pipeline was called.  When it passes, [fit] goes on with line 149. *)
Theorem C1_binary_fit_checks_two_classes
  {V : Type} `{EqDecision V} {PT CG P : Type}
  `{PipelineContract V P} `{Collaborators V PT CG} `{Failures V PT CG P}
  (X : DataFrame V) (y : Series V) (data_splitter : option (Splitter V))
  (force_retrain : bool) (s : State V PT CG P) :
  is_binary (problem_type (self s)) = true ->
  is_multiclass (problem_type (self s)) = false ->
  (check_classes (problem_type (self s)) (infer_feature_types_y y) s
     = (s, Raised (ValueError binary_requires))
   <-> nunique (infer_feature_types_y y) <> 2%nat) /\
  (check_classes (problem_type (self s)) (infer_feature_types_y y) s
     = (s, Done tt)
   <-> nunique (infer_feature_types_y y) = 2%nat) /\
  (infer_feature_types_X_raises X = None ->
   infer_feature_types_y_raises y = None ->
   nunique (infer_feature_types_y y) <> 2%nat ->
   Raising.fit X y data_splitter force_retrain s
     = (s, Raised (ValueError binary_requires))) /\
  (infer_feature_types_X_raises X = None ->
   infer_feature_types_y_raises y = None ->
   nunique (infer_feature_types_y y) = 2%nat ->
   Raising.fit X y data_splitter force_retrain s =
   Raising.fit_checked (infer_feature_types_X X) (infer_feature_types_y y)
     data_splitter force_retrain s).
Proof.
  intros Hbin Hmulti.
  rewrite check_classes_cases, Hbin, Hmulti. simpl.
  destruct (Nat.eqb_spec (nunique (infer_feature_types_y y)) 2) as [Hn|Hn];
    simpl.
  - split; [split; [discriminate | done]|].
    split; [done|]. split; [done|].
    intros HX Hy _. rewrite fit_up_to_check, HX, Hy, Hbin, Hmulti.
    apply Nat.eqb_eq in Hn. by rewrite Hn.
  - split; [done|]. split; [split; [discriminate | done]|].
    split; [|done].
    intros HX Hy _. rewrite fit_up_to_check, HX, Hy, Hbin.
    apply Nat.eqb_neq in Hn. by rewrite Hn.
Qed.

Lemma C1_witness_binary_fit :
  Raising.fit Sample.X4 Sample.y_missing None false Sample.s0
    = (Sample.s0, Raised (ValueError binary_requires)) /\
  check_classes BINARY Sample.y4 Sample.s0 = (Sample.s0, Done tt) /\
  Raising.fit Sample.X4 Sample.y4 None false Sample.s0
    = Raising.fit_checked Sample.X4 Sample.y4 None false Sample.s0.
Proof.
  destruct (C1_binary_fit_checks_two_classes
              Sample.X4 Sample.y_missing None false Sample.s0)
    as (_ & _ & Hbad & _); [reflexivity | reflexivity |].
  destruct (C1_binary_fit_checks_two_classes
              Sample.X4 Sample.y4 None false Sample.s0)
    as (_ & Hcheck & _ & Hgood); [reflexivity | reflexivity |].
  split.
  { apply Hbad; [reflexivity | reflexivity |]. vm_compute. lia. }
  split.
  { apply Hcheck. reflexivity. }
  apply Hgood; reflexivity.
Defined.

(** C1, as stated, fails: the labels [Sample.y4] have exactly 2 distinct
    values and pass the check, and [fit] still raises the class-count error:
    in the first fold the rows to train on carry one class only, and the
    [fit] of the clone of the input pipeline (line 195) makes the same
    check. *)
Lemma C1_counterexample_one_class_in_a_fold :
  nunique (infer_feature_types_y Sample.y4) = 2%nat /\
  (Raising.fit Sample.X4 Sample.y4 None false Sample.s0).2
    = Raised (ValueError binary_requires) /\
  ~ ((exists s', Raising.fit Sample.X4 Sample.y4 None false Sample.s0
                 = (s', Raised (ValueError binary_requires)))
     <-> nunique (infer_feature_types_y Sample.y4) <> 2%nat).
Proof.
  split; [by vm_compute|]. split; [by vm_compute|].
  intros [Hraises _]. apply Hraises; [|by vm_compute].
  eexists. vm_compute. reflexivity.
Qed.

(** In an ensemble whose problem type is multiclass (and not binary), [fit]
    raises the [ValueError] of the class count exactly when [y] has 1 or 2
    distinct values. *)
Lemma multiclass_fit_rejects_one_or_two_classes
  {V : Type} `{EqDecision V} {PT CG P : Type}
  `{PipelineContract V P} `{Collaborators V PT CG}
  (X : DataFrame V) (y : Series V) (data_splitter : option (Splitter V))
  (force_retrain : bool) (s : State V PT CG P) :
  is_binary (problem_type (self s)) = false ->
  is_multiclass (problem_type (self s)) = true ->
  ((nunique (infer_feature_types_y y) = 1%nat \/
    nunique (infer_feature_types_y y) = 2%nat) ->
   fit X y data_splitter force_retrain s
     = (s, Raised (ValueError multiclass_requires))) /\
  (nunique (infer_feature_types_y y) <> 1%nat ->
   nunique (infer_feature_types_y y) <> 2%nat ->
   check_classes (problem_type (self s)) (infer_feature_types_y y) s
     = (s, Done tt) /\
   forall s' e,
     fit X y data_splitter force_retrain s = (s', Raised e) ->
     e <> ValueError multiclass_requires).
Proof.
  intros Hbin Hmulti. split.
  - intros Hn. unfold fit.
    rewrite (bindM_done get_self _ s s (self s)) by done.
    apply bindM_raised. rewrite check_classes_cases, Hbin, Hmulti.
    by destruct Hn as [-> | ->].
  - intros H1 H2.
    assert (Hcheck : check_classes (problem_type (self s))
                       (infer_feature_types_y y) s = (s, Done tt)).
    { rewrite check_classes_cases, Hbin, Hmulti.
      apply Nat.eqb_neq in H1, H2. by rewrite H1, H2. }
    split; [done|]. intros s' e Hfit.
    rewrite fit_after_check in Hfit by done.
    by rewrite (raises_fit_checked _ _ _ _ _ _ _ Hfit).
Qed.

(** C2 (defect of the code): a multiclass ensemble accepts labels without
    any distinct value.  With [y] all missing ([nunique] is 0, fewer than 3)
    the check of line 144, [y.nunique() in [1, 2]], passes and [fit] goes on
    to the end without the class-count error. *)
Theorem C2_multiclass_fit_accepts_no_class :
  nunique Sample.y_missing = 0%nat /\
  check_classes MULTICLASS Sample.y_missing Sample.s0_multiclass
    = (Sample.s0_multiclass, Done tt) /\
  snd (fit Sample.X4 Sample.y_missing None false Sample.s0_multiclass)
    = Done tt.
Proof. vm_compute. done. Qed.

(** ** [transform] *)

Section TransformFacts.

Context {V : Type} `{EqDecision V} {PT CG P : Type}.
Context `{PipelineContract V P} `{Collaborators V PT CG}.

Local Abbreviation Mo := (@M V PT CG P).

Implicit Types (s : State V PT CG P).

Lemma kept_refl s : kept s s.
Proof. by repeat split. Qed.

Lemma kept_trans s1 s2 s3 : kept s1 s2 -> kept s2 s3 -> kept s1 s3.
Proof.
  intros (Hs12 & Hp12 & Hf12) (Hs23 & Hp23 & Hf23).
  split; [congruence|]. split; [congruence|].
  intros l Hl. rewrite Hf23; [by apply Hf12|]. by rewrite Hf12.
Qed.

Lemma kept_mapM {A B : Type} (f : A -> Mo B) (l : list A) :
  (forall a s s' o, f a s = (s', o) -> kept s s') ->
  forall s s' o, mapM f l s = (s', o) -> kept s s'.
Proof.
  intros Hf. induction l as [|a l IH]; intros s s' o; simpl.
  - intros [= <- _]. apply kept_refl.
  - unfold bindM at 1. destruct (f a s) as [s1 [b|e|]] eqn:Hfa.
    + unfold bindM. destruct (mapM f l s1) as [s2 [bs|e|]] eqn:Hl;
        intros [= <- _];
        (eapply kept_trans; [by eapply Hf | by eapply IH]).
    + intros [= <- _]. by eapply Hf.
    + intros [= <- _]. by eapply Hf.
Qed.

(** Reading the pipelines leaves the state as it is. *)
Lemma mapM_get_pipe_state (ls : list loc) s s' (o : outcome (list P)) :
  mapM get_pipe ls s = (s', o) -> s' = s.
Proof.
  revert o. induction ls as [|l ls IH]; intros o; simpl.
  - by intros [= <- _].
  - unfold bindM at 1, get_pipe at 1.
    destruct (pipes s !! l) as [p|]; [|by intros [= <- _]].
    unfold bindM. destruct (mapM get_pipe ls s) as [s1 [ps|e|]] eqn:Hl;
      intros [= <- _]; by eapply IH.
Qed.

Lemma mapM_get_pipe_done (ls : list loc) (ps : list P) s :
  Forall2 (fun l p => pipes s !! l = Some p) ls ps ->
  mapM get_pipe ls s = (s, Done ps).
Proof.
  induction 1 as [|l p ls ps Hl _ IH]; [done|]. simpl.
  unfold bindM at 1, get_pipe at 1. rewrite Hl.
  unfold bindM. by rewrite IH.
Qed.

Lemma all_input_pipelines_fitted_done (ps : list P) s :
  Forall2 (fun l p => pipes s !! l = Some p) (input_pipelines (self s)) ps ->
  _all_input_pipelines_fitted s = (s, Done (forallb pl_is_fitted ps)).
Proof.
  intros Hps. unfold _all_input_pipelines_fitted, bindM, get_self.
  by rewrite (mapM_get_pipe_done _ ps).
Qed.

(** The method calls, run on a state. *)
Lemma call_predict_proba_run (pipeline : loc) (X : DataFrame V) (p : P) s :
  pipes s !! pipeline = Some p ->
  call_predict_proba pipeline X s =
  (mkState (<[fresh (dom (frames s)) := pl_predict_proba p X]> (frames s))
     (pipes s) (self s) (log s ++ [EvPredictProba pipeline X]),
   Done (fresh (dom (frames s)))).
Proof.
  intros Hp. unfold call_predict_proba, bindM, get_pipe. by rewrite Hp.
Qed.

Lemma call_name_run (pipeline : loc) (p : P) s :
  pipes s !! pipeline = Some p ->
  call_name pipeline s = (s, Done (pl_name p)).
Proof. intros Hp. unfold call_name, bindM, get_pipe. by rewrite Hp. Qed.

Lemma call_fit_run (pipeline : loc) (X : DataFrame V) (y : Series V)
  (p : P) s :
  pipes s !! pipeline = Some p ->
  call_fit pipeline X y s =
  (mkState (frames s) (<[pipeline := pl_fit p X y]> (pipes s)) (self s)
     (log s ++ [EvFit pipeline X y]), Done tt).
Proof. intros Hp. unfold call_fit, bindM, get_pipe. by rewrite Hp. Qed.

Lemma call_clone_run (pipeline : loc) (p : P) s :
  pipes s !! pipeline = Some p ->
  call_clone pipeline s =
  (mkState (frames s) (<[fresh (dom (pipes s)) := pl_clone p]> (pipes s))
     (self s) (log s ++ [EvClone pipeline (fresh (dom (pipes s)))]),
   Done (fresh (dom (pipes s)))).
Proof. intros Hp. unfold call_clone, bindM, get_pipe. by rewrite Hp. Qed.

Lemma get_dataframe_run (l : loc) (df : DataFrame V) s :
  frames s !! l = Some (ODataFrame df) ->
  get_dataframe l s = (s, Done df).
Proof. intros Hl. unfold get_dataframe, bindM, get_frame. by rewrite Hl. Qed.

Lemma missing_pipe_is_ill {A : Type} (pipeline : loc) (k : P -> Mo A) s :
  pipes s !! pipeline = None ->
  bindM (get_pipe pipeline) k s = (s, Ill).
Proof. intros Hp. unfold bindM, get_pipe. by rewrite Hp. Qed.

(** One pipeline of the loop of [transform]: its prediction is a new table,
    and that is the only table [_preds_processor] rewrites. *)
Lemma kept_prediction (X : DataFrame V) (pipeline : loc) s s'
  (o : outcome (DataFrame V)) :
  (let! pl_preds := call_predict_proba pipeline X in
   let! name := call_name pipeline in
   let! r := _preds_processor pl_preds name in
   get_dataframe r) s = (s', o) ->
  kept s s'.
Proof.
  destruct (pipes s !! pipeline) as [p|] eqn:Hp.
  2:{ unfold call_predict_proba. unfold bindM at 1.
      rewrite missing_pipe_is_ill by done.
      intros [= <- _]. apply kept_refl. }
  rewrite (bindM_done _ _ _ _ _ (call_predict_proba_run pipeline X p s Hp)).
  set (l0 := fresh (dom (frames s))).
  assert (Hl0 : l0 ∉ dom (frames s)) by apply is_fresh.
  set (s1 := mkState _ _ _ _).
  assert (Hnew : forall l, is_Some (frames s !! l) ->
                   l <> l0 /\ frames s1 !! l = frames s !! l).
  { intros l Hl.
    assert (l <> l0) by (intros ->; destruct Hl0; by apply elem_of_dom).
    split; [done|]. simpl. by rewrite lookup_insert_ne. }
  rewrite (bindM_done _ _ s1 s1 (pl_name p)) by by apply call_name_run.
  destruct (pl_predict_proba p X) as [df| |] eqn:Hpred.
  - destruct (preds_processor_eval s1 l0 (pl_name p) df)
      as (fr & r & Hrun & _ & Hr & _ & Hkeep).
    { simpl. by rewrite lookup_insert_eq. }
    rewrite (bindM_done _ _ _ _ _ Hrun).
    rewrite (get_dataframe_run r (returned_table df (pl_name p))) by done.
    intros [= <- _].
    split; [done|]. split; [done|]. intros l Hl. simpl.
    destruct (Hnew l Hl) as [Hne <-].
    apply Hkeep; [done|]. simpl. rewrite lookup_insert_ne by done. done.
  - rewrite (bindM_raised _ _ s1 s1 (ValueError preds_not_dataframe)).
    + intros [= <- _]. split; [done|]. split; [done|].
      intros l Hl. by apply Hnew.
    + apply (preds_processor_not_a_table s1 l0 _ (OSeries y)); [|done].
      simpl. by rewrite lookup_insert_eq.
  - rewrite (bindM_raised _ _ s1 s1 (ValueError preds_not_dataframe)).
    + intros [= <- _]. split; [done|]. split; [done|].
      intros l Hl. by apply Hnew.
    + apply (preds_processor_not_a_table s1 l0 _ ONone); [|done].
      simpl. by rewrite lookup_insert_eq.
Qed.

(** With every input pipeline fitted, [transform] leaves the ensemble, the
    pipelines and the tables that were there alone, and does not raise the
    error of the unfitted state. *)
Lemma transform_fitted (X : DataFrame V) (ps : list P) s s'
  (o : outcome (DataFrame V)) :
  Forall2 (fun l p => pipes s !! l = Some p) (input_pipelines (self s)) ps ->
  forallb pl_is_fitted ps = true ->
  transform X s = (s', o) ->
  kept s s' /\ o <> Raised (ValueError needs_to_be_fitted).
Proof.
  intros Hps Hfit. unfold transform.
  rewrite (bindM_done _ _ s s true)
    by by rewrite (all_input_pipelines_fitted_done ps), Hfit.
  simpl. rewrite (bindM_done get_self _ s s (self s)) by done.
  unfold bindM at 1.
  destruct (mapM _ (input_pipelines (self s)) s) as [s1 o1] eqn:Hloop.
  assert (Hkept : kept s s1).
  { revert Hloop. apply kept_mapM. intros a s2 s3 o2. apply kept_prediction. }
  destruct o1 as [dfs|e|]; intros [= <- <-]; (split; [done|]); try done.
  assert (e = ValueError preds_not_dataframe) as ->; [|done].
  eapply (raises_mapM _ _ (fun e => e = ValueError preds_not_dataframe));
    [|exact Hloop].
  intros pipeline.
  apply raises_processed;
    [apply raises_call_predict_proba | apply raises_call_name].
Qed.

Lemma transform_unfitted (X : DataFrame V) (ps : list P) s :
  Forall2 (fun l p => pipes s !! l = Some p) (input_pipelines (self s)) ps ->
  forallb pl_is_fitted ps = false ->
  transform X s = (s, Raised (ValueError needs_to_be_fitted)).
Proof.
  intros Hps Hfit. unfold transform.
  rewrite (bindM_done _ _ s s false)
    by by rewrite (all_input_pipelines_fitted_done ps), Hfit.
  done.
Qed.

End TransformFacts.

(** C8, as the code has it: with [ps] the input pipelines of the ensemble,
    when not all of them are fitted [transform(X)] raises, for every [X] and
    without changing anything, a [ValueError] whose message is
    [Input pipelines needs to be fitted before transform]; when all are
    fitted it does not raise this error, and it leaves the fields of the
    ensemble, the pipelines and every table that existed as they were. *)
Theorem C8_transform_needs_fitted_pipelines
  {V : Type} `{EqDecision V} {PT CG P : Type}
  `{PipelineContract V P} `{Collaborators V PT CG}
  (X : DataFrame V) (ps : list P) (s : State V PT CG P) :
  Forall2 (fun l p => pipes s !! l = Some p) (input_pipelines (self s)) ps ->
  (forallb pl_is_fitted ps = false ->
   transform X s =
   (s, Raised
         (ValueError "Input pipelines needs to be fitted before transform")))
  /\
  (forallb pl_is_fitted ps = true ->
   forall s' o,
     transform X s = (s', o) ->
     o <> Raised
            (ValueError "Input pipelines needs to be fitted before transform")
     /\ self s' = self s /\ pipes s' = pipes s /\
     (forall l, is_Some (frames s !! l) -> frames s' !! l = frames s !! l)).
Proof.
  intros Hps. split.
  - intros Hfit. by apply (transform_unfitted X ps).
  - intros Hfit s' o Hrun.
    destruct (transform_fitted X ps s s' o Hps Hfit Hrun)
      as [(Hself & Hpipes & Hframes) Ho].
    done.
Qed.

(** C8, as stated, fails: the pipeline of [Sample.s0] is not fitted, and the
    error that [transform] raises does not have the message
    [input pipelines must be fitted before transform]. *)
Lemma C8_counterexample_message :
  ~ (snd (_all_input_pipelines_fitted Sample.s0) = Done false ->
     snd (transform Sample.X4 Sample.s0) =
     Raised (ValueError "input pipelines must be fitted before transform")).
Proof. intros Himp. specialize (Himp eq_refl). discriminate Himp. Qed.

Lemma C8_witness_unfitted_and_fitted :
  transform Sample.X4 Sample.s0 =
  (Sample.s0,
   Raised (ValueError "Input pipelines needs to be fitted before transform"))
  /\
  (transform Sample.X4 Sample.s_fitted).2 <>
  Raised (ValueError "Input pipelines needs to be fitted before transform")
  /\
  self (transform Sample.X4 Sample.s_fitted).1 = self Sample.s_fitted /\
  pipes (transform Sample.X4 Sample.s_fitted).1 = pipes Sample.s_fitted /\
  frames (transform Sample.X4 Sample.s_fitted).1 !! 0%nat
  = frames Sample.s_fitted !! 0%nat.
Proof.
  split.
  - apply (C8_transform_needs_fitted_pipelines Sample.X4
             [Sample.mkToy "rf" [LStr "no"; LStr "yes"] []] Sample.s0).
    + repeat constructor.
    + reflexivity.
  - destruct (C8_transform_needs_fitted_pipelines Sample.X4
                [Sample.mkToy "rf" [LStr "no"; LStr "yes"] [4%nat]]
                Sample.s_fitted) as [_ Hfitted].
    + repeat constructor.
    + destruct (Hfitted eq_refl
                  (transform Sample.X4 Sample.s_fitted).1
                  (transform Sample.X4 Sample.s_fitted).2)
        as (Ho & Hself & Hpipes & Hframes).
      * apply surjective_pairing.
      * split; [exact Ho|]. split; [exact Hself|]. split; [exact Hpipes|].
        apply Hframes. vm_compute. by eexists.
Defined.

(** ** The cross-validation inside [fit] *)

Section CrossValidationFacts.

Context {V : Type} `{EqDecision V} {PT CG P : Type}.
Context `{PipelineContract V P} `{Collaborators V PT CG}.

Local Abbreviation Mo := (@M V PT CG P).

Implicit Types (s : State V PT CG P).

(** Every prediction is a table. *)
Hypothesis predictions_are_tables :
  forall (p : P) (X : DataFrame V), exists df, pl_predict_proba p X = ODataFrame df.

(** The loop of line 185: one new object per input pipeline. *)
Lemma clones_run (ls : list loc) (ps : list P) s :
  Forall2 (fun l p => pipes s !! l = Some p) ls ps ->
  exists (clones : list loc) (pp : gmap loc P),
    mapM call_clone ls s
      = (mkState (frames s) pp (self s) (log s ++ zip_with EvClone ls clones),
         Done clones) /\
    length clones = length ls /\
    NoDup clones /\
    Forall (fun c => pipes s !! c = None) clones /\
    Forall2 (fun c p => pp !! c = Some (pl_clone p)) clones ps /\
    (forall l, is_Some (pipes s !! l) -> pp !! l = pipes s !! l).
Proof.
  intros Hps. revert s Hps.
  induction ps as [|p ps IH] in ls |- *; intros s Hps.
  - apply Forall2_nil_inv_r in Hps as ->.
    exists [], (pipes s). simpl. rewrite app_nil_r.
    destruct s; repeat split; constructor.
  - apply Forall2_cons_inv_r in Hps as (l & ls' & Hl & Hps & ->).
    simpl.
    rewrite (bindM_done _ _ _ _ _ (call_clone_run l p s Hl)).
    set (c := fresh (dom (pipes s))).
    assert (Hc : pipes s !! c = None).
    { apply not_elem_of_dom. apply is_fresh. }
    set (s1 := mkState _ _ _ _).
    assert (Hkeep1 : forall l', is_Some (pipes s !! l') ->
                       pipes s1 !! l' = pipes s !! l').
    { intros l' Hl'. simpl. rewrite lookup_insert_ne; [done|].
      intros <-. rewrite Hc in Hl'. by destruct Hl'. }
    destruct (IH ls' s1) as (clones & pp & Hrun & Hlen & Hnd & Hnew & Hcl & Hkeep).
    { eapply Forall2_impl; [exact Hps|]. intros l' p' Hl'. simpl in Hl'.
      rewrite Hkeep1; [done | by eexists]. }
    exists (c :: clones), pp.
    rewrite (bindM_done _ _ _ _ _ Hrun). simpl.
    assert (Hc1 : pipes s1 !! c = Some (pl_clone p)).
    { simpl. by rewrite lookup_insert_eq. }
    split; [by rewrite <- app_assoc|].
    split; [by rewrite Hlen|].
    split.
    { constructor; [|done]. intros Hin.
      rewrite Forall_forall in Hnew. specialize (Hnew c Hin). congruence. }
    split.
    { constructor; [done|].
      eapply Forall_impl; [exact Hnew|]. intros c' Hc'. simpl in Hc'.
      destruct (decide (c = c')) as [<-|Hne]; [done|].
      by rewrite lookup_insert_ne in Hc'. }
    split.
    { constructor; [|done]. rewrite Hkeep; [done | by eexists]. }
    intros l' Hl'. rewrite Hkeep; [by apply Hkeep1|].
    rewrite Hkeep1; done.
Qed.

(** One pipeline in one fold: it is fitted on the training rows, then
    predicts on the validation rows. *)
Lemma fold_pipeline_run (X_train : DataFrame V) (y_train : Series V)
  (X_valid : DataFrame V) (pipeline : loc) (p : P) s :
  pipes s !! pipeline = Some p ->
  exists (fr : gmap loc (pyobj V)) (df : DataFrame V),
    fold_pipeline X_train y_train X_valid pipeline s
      = (mkState fr (<[pipeline := pl_fit p X_train y_train]> (pipes s))
           (self s)
           (log s ++ [EvFit pipeline X_train y_train;
                      EvPredictProba pipeline X_valid]),
         Done df).
Proof.
  intros Hp. unfold fold_pipeline.
  rewrite (bindM_done _ _ _ _ _ (call_fit_run pipeline X_train y_train p s Hp)).
  set (s1 := mkState _ _ _ _).
  assert (Hp1 : pipes s1 !! pipeline = Some (pl_fit p X_train y_train)).
  { simpl. by rewrite lookup_insert_eq. }
  rewrite (bindM_done _ _ _ _ _
             (call_predict_proba_run pipeline X_valid _ s1 Hp1)).
  set (s2 := mkState _ _ _ _).
  rewrite (bindM_done _ _ s2 s2 (pl_name (pl_fit p X_train y_train)))
    by by apply call_name_run.
  destruct (predictions_are_tables (pl_fit p X_train y_train) X_valid)
    as [df Hdf].
  destruct (preds_processor_eval s2 (fresh (dom (frames s1)))
              (pl_name (pl_fit p X_train y_train)) df)
    as (fr & r & Hrun & _ & Hr & _ & _).
  { simpl. by rewrite Hdf, lookup_insert_eq. }
  rewrite (bindM_done _ _ _ _ _ Hrun).
  rewrite (get_dataframe_run r
             (returned_table df (pl_name (pl_fit p X_train y_train))))
    by done.
  exists fr, (returned_table df (pl_name (pl_fit p X_train y_train))).
  simpl. by rewrite <- app_assoc.
Qed.

(** One fold: every pipeline of [pred_pls] in turn. *)
Lemma fold_pipelines_run (X_train : DataFrame V) (y_train : Series V)
  (X_valid : DataFrame V) (pred_pls : list loc) s :
  Forall (fun c => is_Some (pipes s !! c)) pred_pls ->
  exists (fr : gmap loc (pyobj V)) (pp : gmap loc P)
         (fold_X : list (DataFrame V)),
    mapM (fold_pipeline X_train y_train X_valid) pred_pls s
      = (mkState fr pp (self s)
           (log s ++ flat_map (fun pipeline : loc =>
                                 [EvFit pipeline X_train y_train;
                                  EvPredictProba pipeline X_valid]) pred_pls),
         Done fold_X) /\
    (forall l, is_Some (pipes s !! l) -> is_Some (pp !! l)) /\
    (forall l, l ∉ pred_pls -> pp !! l = pipes s !! l).
Proof.
  intros Hall. revert s Hall.
  induction pred_pls as [|c cs IH]; intros s Hall.
  - exists (frames s), (pipes s), []. simpl. rewrite app_nil_r.
    by destruct s.
  - apply Forall_cons in Hall as [[p Hc] Hall]. simpl.
    destruct (fold_pipeline_run X_train y_train X_valid c p s Hc)
      as (fr1 & df & Hrun1).
    rewrite (bindM_done _ _ _ _ _ Hrun1).
    set (s1 := mkState _ _ _ _).
    assert (Hvalid1 : forall l, is_Some (pipes s !! l) ->
                        is_Some (pipes s1 !! l)).
    { intros l Hl. simpl. destruct (decide (c = l)) as [<-|Hne].
      - rewrite lookup_insert_eq. by eexists.
      - by rewrite lookup_insert_ne. }
    destruct (IH s1) as (fr & pp & fold_X & Hrun & Hvalid & Hother).
    { eapply Forall_impl; [exact Hall|]. intros l. apply Hvalid1. }
    rewrite (bindM_done _ _ _ _ _ Hrun).
    exists fr, pp, (df :: fold_X). simpl.
    split; [by rewrite <- app_assoc|]. split.
    + intros l Hl. by apply Hvalid, Hvalid1.
    + intros l Hl. apply not_elem_of_cons in Hl as [Hne Hl].
      rewrite Hother by done. simpl. by rewrite lookup_insert_ne.
Qed.

Lemma one_fold_run (X : DataFrame V) (y : Series V) (pred_pls : list loc)
  (split : list nat * list nat) s :
  Forall (fun c => is_Some (pipes s !! c)) pred_pls ->
  exists (fr : gmap loc (pyobj V)) (pp : gmap loc P)
         (block : DataFrame V * Series V),
    one_fold X y pred_pls split s
      = (mkState fr pp (self s) (log s ++ fold_events X y pred_pls split),
         Done block) /\
    (forall l, is_Some (pipes s !! l) -> is_Some (pp !! l)) /\
    (forall l, l ∉ pred_pls -> pp !! l = pipes s !! l).
Proof.
  intros Hall. destruct split as [train valid]. unfold one_fold.
  destruct (fold_pipelines_run (X_iloc X train) (y_iloc y train)
              (X_iloc X valid) pred_pls s Hall)
    as (fr & pp & fold_X & Hrun & Hvalid & Hother).
  rewrite (bindM_done _ _ _ _ _ Hrun).
  by exists fr, pp, (concat_columns fold_X, y_iloc y valid).
Qed.

(** All the folds, one after the other, on the same pipelines. *)
Lemma folds_run (X : DataFrame V) (y : Series V) (pred_pls : list loc)
  (splits : list (list nat * list nat)) s :
  Forall (fun c => is_Some (pipes s !! c)) pred_pls ->
  exists (fr : gmap loc (pyobj V)) (pp : gmap loc P)
         (blocks : list (DataFrame V * Series V)),
    mapM (one_fold X y pred_pls) splits s
      = (mkState fr pp (self s)
           (log s ++ flat_map (fold_events X y pred_pls) splits),
         Done blocks) /\
    length blocks = length splits /\
    (forall l, l ∉ pred_pls -> pp !! l = pipes s !! l).
Proof.
  intros Hall. revert s Hall.
  induction splits as [|split splits IH]; intros s Hall.
  - exists (frames s), (pipes s), []. simpl. rewrite app_nil_r.
    by destruct s.
  - simpl.
    destruct (one_fold_run X y pred_pls split s Hall)
      as (fr1 & pp1 & block & Hrun1 & Hvalid1 & Hother1).
    rewrite (bindM_done _ _ _ _ _ Hrun1).
    destruct (IH (mkState fr1 pp1 (self s)
                    (log s ++ fold_events X y pred_pls split)))
      as (fr & pp & blocks & Hrun & Hlen & Hother).
    { eapply Forall_impl; [exact Hall|]. intros l. apply Hvalid1. }
    rewrite (bindM_done _ _ _ _ _ Hrun).
    exists fr, pp, (block :: blocks). simpl.
    split; [by rewrite <- app_assoc|]. split; [by rewrite Hlen|].
    intros l Hl. rewrite Hother by done. simpl. by apply Hother1.
Qed.

End CrossValidationFacts.

(** ** Reading the log of the cross-validation *)

Section LogFacts.

Context {V : Type} `{EqDecision V} {PT CG : Type} `{Collaborators V PT CG}.

Lemma count_clones_app (l1 l2 : list (event V)) :
  count_clones (l1 ++ l2) = (count_clones l1 + count_clones l2)%nat.
Proof. unfold count_clones. by rewrite List.filter_app, length_app. Qed.

Lemma fit_targets_app (l1 l2 : list (event V)) :
  fit_targets (l1 ++ l2) = (fit_targets l1 ++ fit_targets l2)%list.
Proof. unfold fit_targets. apply omap_app. Qed.

Lemma clone_events (pls clones : list loc) :
  length clones = length pls ->
  count_clones (zip_with (@EvClone V) pls clones) = length pls /\
  fit_targets (zip_with (@EvClone V) pls clones) = [].
Proof.
  revert clones. induction pls as [|l pls IH]; intros [|c clones] Hlen;
    try done.
  injection Hlen as Hlen. destruct (IH clones Hlen) as [Hc Hf].
  split; [|done]. unfold count_clones in *. simpl. by rewrite Hc.
Qed.

Lemma fold_events_read (X : DataFrame V) (y : Series V) (pred_pls : list loc)
  (split : list nat * list nat) :
  count_clones (fold_events X y pred_pls split) = 0%nat /\
  fit_targets (fold_events X y pred_pls split) = pred_pls.
Proof.
  unfold fold_events. induction pred_pls as [|c cs [IHc IHf]]; [done|].
  split; [exact IHc|].
  change (c :: fit_targets
                 (flat_map (fun pipeline : loc =>
                    [EvFit pipeline (X_iloc X split.1) (y_iloc y split.1);
                     EvPredictProba pipeline (X_iloc X split.2)]) cs)
          = c :: cs).
  by rewrite IHf.
Qed.

(** In the calls of a cross-validation there is one [clone()] per input
    pipeline, and every fold fits every clone. *)
Lemma cv_events_read (X : DataFrame V) (y : Series V) (pls clones : list loc)
  (splits : list (list nat * list nat)) :
  length clones = length pls ->
  count_clones (cv_events X y pls clones splits) = length pls /\
  fit_targets (cv_events X y pls clones splits)
    = flat_map (fun _ => clones) splits.
Proof.
  intros Hlen. unfold cv_events.
  rewrite count_clones_app, fit_targets_app.
  destruct (clone_events pls clones Hlen) as [-> ->].
  induction splits as [|split splits [IHc IHf]]; [done|].
  simpl. rewrite count_clones_app, fit_targets_app.
  destruct (fold_events_read X y clones split) as [-> ->].
  simpl in *. split; [lia | by rewrite IHf].
Qed.

End LogFacts.

(** C4, as the code has it: when every prediction is a table, the
    cross-validation inside [fit] returns; it clones every input pipeline
    once, before the first fold ([clones] are new objects, one per input
    pipeline, the same for all folds); then, fold after fold, it fits each of
    these clones on the training rows of the fold and has it predict the
    probabilities of the validation rows of the fold.  So the log has one
    [clone()] per input pipeline, every fold fits every clone again, and the
    input pipelines themselves are left as they were. *)
Theorem C4_clones_made_once_and_refitted_in_every_fold
  {V : Type} `{EqDecision V} {PT CG P : Type}
  `{PipelineContract V P} `{Collaborators V PT CG}
  (X : DataFrame V) (y : Series V) (data_splitter : option (Splitter V))
  (ps : list P) (s : State V PT CG P) :
  Forall2 (fun l p => pipes s !! l = Some p) (input_pipelines (self s)) ps ->
  (forall (p : P) (X' : DataFrame V),
     exists df, pl_predict_proba p X' = ODataFrame df) ->
  exists (s' : State V PT CG P) (m : DataFrame V * Series V)
         (clones : list loc),
    from_splits (self s) X y data_splitter s = (s', Done m) /\
    length clones = length (input_pipelines (self s)) /\
    NoDup clones /\
    Forall (fun c => pipes s !! c = None) clones /\
    log s' = (log s ++ cv_events X y (input_pipelines (self s)) clones
                         (splits_of X y data_splitter))%list /\
    count_clones (cv_events X y (input_pipelines (self s)) clones
                    (splits_of X y data_splitter))
      = length (input_pipelines (self s)) /\
    fit_targets (cv_events X y (input_pipelines (self s)) clones
                   (splits_of X y data_splitter))
      = flat_map (fun _ => clones) (splits_of X y data_splitter) /\
    (forall l, is_Some (pipes s !! l) -> pipes s' !! l = pipes s !! l).
Proof.
  intros Hps Htables.
  destruct (clones_run (input_pipelines (self s)) ps s Hps)
    as (clones & pp1 & Hrun1 & Hlen & Hnd & Hnew & Hcl & Hkeep1).
  set (splits := splits_of X y data_splitter).
  destruct (folds_run Htables X y clones splits
              (mkState (frames s) pp1 (self s)
                 (log s ++ zip_with EvClone (input_pipelines (self s)) clones)))
    as (fr & pp & blocks & Hrun2 & _ & Hother).
  { simpl. clear -Hcl. induction Hcl as [|c p cs ps Hc _ IH]; constructor.
    - by eexists.
    - exact IH. }
  eexists _, (pd_concat blocks.*1, pd_concat_series blocks.*2), clones.
  split.
  { unfold from_splits.
    rewrite (bindM_done _ _ _ _ _ Hrun1).
    assert (Hsplits : splits =
              match data_splitter with
              | Some d => d
              | None => make_data_splitter X y ProblemTypes_BINARY
              end X y) by by destruct data_splitter.
    rewrite <- Hsplits.
    rewrite (bindM_done _ _ _ _ _ Hrun2). reflexivity. }
  simpl. split; [done|]. split; [done|]. split; [done|].
  split; [by unfold cv_events; rewrite app_assoc|].
  destruct (cv_events_read X y (input_pipelines (self s)) clones splits Hlen)
    as [Hcount Hfits].
  split; [done|]. split; [done|].
  intros l Hl. rewrite Hother; [by apply Hkeep1|].
  intros Hin. rewrite Forall_forall in Hnew.
  rewrite (Hnew l Hin) in Hl. by destruct Hl.
Qed.

(** C4, as stated, fails: with one input pipeline and two folds there is one
    [clone()] call, not two, and the one clone (at location 1) is fitted in
    both folds. *)
Lemma C4_counterexample_one_clone_for_two_folds :
  count_clones
    (log (from_splits (self Sample.s0) Sample.X4 Sample.y4 None Sample.s0).1)
    = 1%nat /\
  fit_targets
    (log (from_splits (self Sample.s0) Sample.X4 Sample.y4 None Sample.s0).1)
    = [1%nat; 1%nat] /\
  ~ cloned_fresh_per_fold
      (length (input_pipelines (self Sample.s0)))
      (length (splits_of Sample.X4 Sample.y4 None))
      (log (from_splits (self Sample.s0) Sample.X4 Sample.y4 None
              Sample.s0).1).
Proof.
  split; [by vm_compute|]. split; [by vm_compute|].
  intros [Hcount _]. vm_compute in Hcount. discriminate Hcount.
Qed.

Lemma C4_witness_two_folds :
  exists s' m clones,
    from_splits (self Sample.s0) Sample.X4 Sample.y4 None Sample.s0
      = (s', Done m) /\
    length clones = 1%nat /\
    log s' =
      cv_events Sample.X4 Sample.y4 [0%nat] clones
        (Sample.two_folds Sample.X4 Sample.y4) /\
    count_clones (log s') = 1%nat.
Proof.
  destruct (C4_clones_made_once_and_refitted_in_every_fold
              Sample.X4 Sample.y4 None
              [Sample.mkToy "rf" [LStr "no"; LStr "yes"] []] Sample.s0)
    as (s' & m & clones & Hrun & Hlen & _ & _ & Hlog & Hcount & _).
  - repeat constructor.
  - intros p X'. eexists. reflexivity.
  - exists s', m, clones. split; [exact Hrun|]. split; [exact Hlen|].
    split; [exact Hlog|]. rewrite Hlog. exact Hcount.
Defined.

(** * Further properties *)

(** ** The resolver on sequences *)

Section ResolverMore.

Context {E : Type}.
Variable getitem : string -> option E.

Local Abbreviation resolve := (handle_problem_types getitem).

(** What the loop has built when it returns holds members only, given that
    it started from members only. *)
Lemma resolve_loop_members (items acc out : list (pyval E)) :
  Forall (fun v => exists p, v = VEnum p) acc ->
  resolve_loop getitem items acc = inr out ->
  Forall (fun v => exists p, v = VEnum p) out.
Proof.
  revert acc. induction items as [|v items IH]; intros acc Hacc; simpl.
  - by intros [= <-].
  - destruct v as [p|s|r|l]; try by apply IH.
    + apply IH. apply Forall_app. split; [done|].
      constructor; [by exists p | constructor].
    + destruct (getitem (upper s)) as [tp|]; [|done].
      apply IH. apply Forall_app. split; [done|].
      constructor; [by exists tp | constructor].
Qed.

(** A list of members resolves to itself. *)
Lemma resolve_loop_of_members (items : list (pyval E)) :
  Forall (fun v => exists p, v = VEnum p) items ->
  resolve_loop getitem items [] = inr items.
Proof.
  induction 1 as [|v items [p ->] _ IH]; [done|].
  simpl. by rewrite resolve_loop_acc, IH.
Qed.

(** The loop stops at the first string that names no member. *)
Lemma resolve_loop_first_unknown (pre post acc out : list (pyval E))
  (s : string) :
  resolve_loop getitem pre acc = inr out ->
  getitem (upper s) = None ->
  resolve_loop getitem (pre ++ VStr s :: post) acc
    = inl (KeyError (does_not_exist s)).
Proof.
  revert acc. induction pre as [|v pre IH]; intros acc Hpre Hs; simpl in *.
  - by rewrite Hs.
  - destruct v as [p|s'|r|l]; try by apply IH.
    destruct (getitem (upper s')) as [tp|]; [by apply IH | done].
Qed.

End ResolverMore.

(** X1: a sequence of members and of strings that name members resolves to
    the list of the members, one per element and in the order of the input. *)
Theorem X1_sequence_resolves_in_order
  {E : Type} (getitem : string -> option E) (items out : list (pyval E)) :
  Forall2 (resolved_as getitem) items out ->
  handle_problem_types getitem (VList items) = inr (VList out) /\
  length out = length items.
Proof.
  intros Hall. split; [by apply resolve_sequence_in_order|].
  symmetry. by eapply Forall2_length.
Qed.

Lemma X1_witness_three_names :
  handle_problem_types ProblemTypes_getitem
    (VList [VStr "multiclass"; VEnum BINARY; VStr "Regression"])
  = inr (VList [VEnum MULTICLASS; VEnum BINARY; VEnum REGRESSION]) /\
  length [VEnum MULTICLASS; VEnum BINARY; VEnum REGRESSION]
  = length [VStr "multiclass"; VEnum BINARY; VStr "Regression"].
Proof.
  apply (X1_sequence_resolves_in_order ProblemTypes_getitem).
  repeat constructor; by eexists.
Defined.

(** X2: in a sequence, the first string that names no member decides: when
    the elements before it resolve, the call raises the [KeyError] of that
    string, whatever comes after it. *)
Theorem X2_first_unknown_string_raises
  {E : Type} (getitem : string -> option E)
  (pre post : list (pyval E)) (s : string) (v : pyval E) :
  handle_problem_types getitem (VList pre) = inr v ->
  getitem (upper s) = None ->
  handle_problem_types getitem (VList (pre ++ VStr s :: post))
    = inl (KeyError ("Problem type '" ++ s ++ "' does not exist")).
Proof.
  unfold handle_problem_types. intros Hpre Hs.
  destruct (resolve_loop getitem pre []) as [e|out] eqn:Hloop; [done|].
  by rewrite (resolve_loop_first_unknown getitem pre post [] out s).
Qed.

Lemma X2_witness_two_unknown :
  handle_problem_types ProblemTypes_getitem
    (VList [VStr "binary"; VStr "ranking"; VStr "clustering"; VEnum BINARY])
  = inl (KeyError "Problem type 'ranking' does not exist").
Proof.
  apply (X2_first_unknown_string_raises ProblemTypes_getitem
           [VStr "binary"] [VStr "clustering"; VEnum BINARY] "ranking"
           (VList [VEnum BINARY])); reflexivity.
Defined.

(** X3: what the resolver returns is a member or a list of members only, and
    resolving it again gives it back. *)
Theorem X3_resolver_is_idempotent
  {E : Type} (getitem : string -> option E) (v w : pyval E) :
  handle_problem_types getitem v = inr w ->
  ((exists p, w = VEnum p) \/
   (exists types, w = VList types /\
                  Forall (fun t => exists p, t = VEnum p) types)) /\
  handle_problem_types getitem w = inr w.
Proof.
  intros Hv.
  assert (Hlist : forall items types,
            resolve_loop getitem items [] = inr types ->
            Forall (fun t => exists p, t = VEnum p) types /\
            handle_problem_types getitem (VList types) = inr (VList types)).
  { intros items types Hloop.
    assert (Hm : Forall (fun t => exists p, t = VEnum p) types)
      by by eapply resolve_loop_members.
    split; [done|]. unfold handle_problem_types.
    by rewrite resolve_loop_of_members. }
  destruct v as [p|s|r|items]; unfold handle_problem_types in Hv.
  - injection Hv as <-. split; [left; by exists p | done].
  - destruct (resolve_loop getitem [VStr s] []) as [e|types] eqn:Hloop;
      [discriminate Hv|].
    injection Hv as <-.
    destruct (Hlist _ _ Hloop) as [Hm Hre].
    split; [right; by exists types | done].
  - discriminate Hv.
  - destruct (resolve_loop getitem items []) as [e|types] eqn:Hloop;
      [discriminate Hv|].
    injection Hv as <-.
    destruct (Hlist _ _ Hloop) as [Hm Hre].
    split; [right; by exists types | done].
Qed.

Lemma X3_witness_twice :
  handle_problem_types ProblemTypes_getitem
    (VList [VEnum REGRESSION; VEnum BINARY])
  = inr (VList [VEnum REGRESSION; VEnum BINARY]).
Proof.
  apply (X3_resolver_is_idempotent ProblemTypes_getitem
           (VList [VStr "regression"; VOther "7"; VStr "BINARY"])).
  reflexivity.
Defined.

(** ** More on [_preds_processor] *)

Section ProcessorMore.

Context {V PT CG P : Type}.

Implicit Types (s : State V PT CG P) (df : DataFrame V).

Lemma df_index_returned_table df (name : string) :
  df_index (returned_table df name) = df_index df.
Proof.
  unfold returned_table.
  destruct (Nat.eqb _ 2); [|done].
  by destruct (df_columns (renamed_in_place df)).
Qed.

Lemma spec_positional_idem df :
  spec_positional (spec_positional df) = spec_positional df.
Proof.
  unfold spec_positional. simpl. f_equal. apply list_eq. intros i.
  rewrite !list_lookup_imap. by destruct (df_cols df !! i).
Qed.

Lemma spec_positional_NoDup df : NoDup (df_columns (spec_positional df)).
Proof. rewrite df_columns_spec_positional. apply positions_NoDup. Qed.

(** The policy looks at positions and cells only. *)
Lemma spec_reshape_positional df (name : string) :
  spec_reshape (spec_positional df) name = spec_reshape df name.
Proof. unfold spec_reshape. by rewrite spec_positional_idem. Qed.

End ProcessorMore.

(** X4: given a reference to anything but a table, [_preds_processor]
    raises a [ValueError] with the message
    [Preds must be in the form of a pd.Dataframe], and nothing has changed. *)
Theorem X4_preds_processor_rejects_non_tables {V PT CG P : Type}
  (s : State V PT CG P) (preds : loc) (pipeline_name : string)
  (o : pyobj V) :
  frames s !! preds = Some o ->
  (forall df, o <> ODataFrame df) ->
  _preds_processor preds pipeline_name s
    = (s, Raised (ValueError "Preds must be in the form of a pd.Dataframe")).
Proof.
  intros Ho Hdf.
  by apply (preds_processor_not_a_table s preds pipeline_name o).
Qed.

Lemma X4_witness_series :
  _preds_processor 0%nat "rf"
    (mkState {[ 0%nat := OSeries Sample.y4 ]} (pipes Sample.s0)
       (self Sample.s0) [])
  = (mkState {[ 0%nat := OSeries Sample.y4 ]} (pipes Sample.s0)
       (self Sample.s0) [],
     Raised (ValueError "Preds must be in the form of a pd.Dataframe")).
Proof.
  apply (X4_preds_processor_rejects_non_tables _ 0%nat "rf"
           (OSeries Sample.y4)).
  - reflexivity.
  - intros df. discriminate.
Defined.

(** X5: on a woodwork table (pairwise distinct labels) [_preds_processor]
    returns.  The result is a new object with the row index of the input;
    apart from the table it was given, every object that existed is as it
    was, and so are the pipelines, the ensemble and the log. *)
Theorem X5_preds_processor_touches_its_argument_only {V PT CG P : Type}
  (s : State V PT CG P) (preds : loc) (pipeline_name : string)
  (df : DataFrame V) :
  frames s !! preds = Some (ODataFrame df) ->
  NoDup (df_columns df) ->
  exists (s' : State V PT CG P) (r : loc) (out : DataFrame V),
    _preds_processor preds pipeline_name s = (s', Done r) /\
    frames s !! r = None /\
    frames s' !! r = Some (ODataFrame out) /\
    df_index out = df_index df /\
    (forall l, l <> preds -> is_Some (frames s !! l) ->
               frames s' !! l = frames s !! l) /\
    pipes s' = pipes s /\ self s' = self s /\ log s' = log s.
Proof.
  intros Hpreds Hnd.
  destruct (preds_processor_run s preds pipeline_name df Hpreds Hnd)
    as (fr & r & Hrun & _ & Hout & Hnew & Hkeep).
  eexists _, r, (spec_reshape df pipeline_name).
  split; [exact Hrun|]. simpl.
  split; [done|]. split; [done|]. done.
Qed.

Lemma X5_witness_other_tables_kept :
  exists s' r out,
    _preds_processor 1%nat "xgb" Sample.s_tables = (s', Done r) /\
    frames s' !! r = Some (ODataFrame out) /\
    df_index out = [10; 11] /\
    frames s' !! 0%nat = Some (ODataFrame Sample.preds2) /\
    frames s' !! 2%nat = Some (ODataFrame Sample.preds01).
Proof.
  destruct (X5_preds_processor_touches_its_argument_only
              Sample.s_tables 1%nat "xgb" Sample.preds3)
    as (s' & r & out & Hrun & _ & Hout & Hidx & Hkeep & _).
  - reflexivity.
  - refine (bool_decide_unpack _ _). vm_compute. exact I.
  - exists s', r, out. split; [exact Hrun|]. split; [exact Hout|].
    split; [exact Hidx|].
    split; (rewrite Hkeep; [reflexivity | lia | by eexists]).
Defined.

(** X6: calling [_preds_processor] again on a table it has processed gives
    the same thing again.  The second call leaves the table, now labelled by
    positions, as the first call left it, does not disturb the first result,
    and returns in a new object the reshaped table of the original; with the
    same pipeline name the two results are equal tables. *)
Theorem X6_preds_processor_twice {V PT CG P : Type}
  (s : State V PT CG P) (preds : loc) (name1 name2 : string)
  (df : DataFrame V) :
  frames s !! preds = Some (ODataFrame df) ->
  NoDup (df_columns df) ->
  exists (s1 s2 : State V PT CG P) (r1 r2 : loc),
    _preds_processor preds name1 s = (s1, Done r1) /\
    _preds_processor preds name2 s1 = (s2, Done r2) /\
    r2 <> r1 /\
    frames s1 !! r1 = Some (ODataFrame (spec_reshape df name1)) /\
    frames s2 !! r1 = Some (ODataFrame (spec_reshape df name1)) /\
    frames s2 !! r2 = Some (ODataFrame (spec_reshape df name2)) /\
    frames s2 !! preds = frames s1 !! preds.
Proof.
  intros Hpreds Hnd.
  destruct (preds_processor_run s preds name1 df Hpreds Hnd)
    as (fr1 & r1 & Hrun1 & Hmid1 & Hout1 & Hnew1 & Hkeep1).
  set (s1 := mkState fr1 (pipes s) (self s) (log s)).
  destruct (preds_processor_run s1 preds name2 (spec_positional df))
    as (fr2 & r2 & Hrun2 & Hmid2 & Hout2 & Hnew2 & Hkeep2).
  { exact Hmid1. }
  { apply spec_positional_NoDup. }
  rewrite spec_positional_idem in Hmid2.
  rewrite spec_reshape_positional in Hout2.
  assert (Hr1 : r1 <> preds) by (intros ->; congruence).
  exists s1, (mkState fr2 (pipes s) (self s) (log s)), r1, r2.
  split; [exact Hrun1|]. split; [exact Hrun2|]. simpl.
  split; [intros ->; simpl in Hnew2; congruence|].
  split; [done|].
  split; [rewrite Hkeep2; [done | done | by eexists]|].
  split; [done|]. by rewrite Hmid1, Hmid2.
Qed.

Lemma X6_witness_same_name :
  exists s1 s2 r1 r2,
    _preds_processor 0%nat "rf" Sample.s_tables = (s1, Done r1) /\
    _preds_processor 0%nat "rf" s1 = (s2, Done r2) /\
    r2 <> r1 /\
    frames s2 !! r1 = frames s2 !! r2.
Proof.
  destruct (X6_preds_processor_twice Sample.s_tables 0%nat "rf" "rf"
              Sample.preds2)
    as (s1 & s2 & r1 & r2 & Hrun1 & Hrun2 & Hne & _ & Hr1 & Hr2 & _).
  - reflexivity.
  - refine (bool_decide_unpack _ _). vm_compute. exact I.
  - exists s1, s2, r1, r2. repeat split; try done. by rewrite Hr1, Hr2.
Defined.

(** X7: the key of a column can be read back.  Two keys
    [Col <i> <name>.x] are equal only for the same integer [i] and the same
    pipeline name, whatever characters the names contain. *)
Theorem X7_column_key_reads_back (i j : Z) (name1 name2 : string) :
  col_key (LInt i) name1 = col_key (LInt j) name2 <->
  i = j /\ name1 = name2.
Proof.
  split; [apply col_key_inj|]. by intros [-> ->].
Qed.

Lemma X7_witness_names_with_blanks :
  col_key (LInt 1) "2 rf.x" <> col_key (LInt 12) "rf.x" /\
  col_key (LInt 1) "rf" <> col_key (LInt 1) "rf.x".
Proof.
  split; intros Heq;
    apply (X7_column_key_reads_back) in Heq as [Hi Hn];
    (discriminate Hi || discriminate Hn).
Defined.

(** ** More on the check of the classes *)

(** X8: in an ensemble whose problem type is multiclass (and not binary),
    the check of lines 144-147 raises the [ValueError] of the class count
    exactly when [y] (after type inference) has 1 or 2 distinct values, and
    passes for every other number, 0 among them.  When the check raises,
    [fit(X, y)] raises this error and nothing has changed; when it passes,
    [fit] goes on with line 149. *)
Theorem X8_multiclass_fit_rejects_one_or_two_classes
  {V : Type} `{EqDecision V} {PT CG P : Type}
  `{PipelineContract V P} `{Collaborators V PT CG} `{Failures V PT CG P}
  (X : DataFrame V) (y : Series V) (data_splitter : option (Splitter V))
  (force_retrain : bool) (s : State V PT CG P) :
  is_binary (problem_type (self s)) = false ->
  is_multiclass (problem_type (self s)) = true ->
  (check_classes (problem_type (self s)) (infer_feature_types_y y) s
     = (s, Raised
             (ValueError
                "Multiclass pipelines require y to have 3 or more unique classes!"))
   <-> (nunique (infer_feature_types_y y) = 1%nat \/
        nunique (infer_feature_types_y y) = 2%nat)) /\
  (check_classes (problem_type (self s)) (infer_feature_types_y y) s
     = (s, Done tt)
   <-> (nunique (infer_feature_types_y y) <> 1%nat /\
        nunique (infer_feature_types_y y) <> 2%nat)) /\
  (infer_feature_types_X_raises X = None ->
   infer_feature_types_y_raises y = None ->
   (nunique (infer_feature_types_y y) = 1%nat \/
    nunique (infer_feature_types_y y) = 2%nat) ->
   Raising.fit X y data_splitter force_retrain s
     = (s, Raised
             (ValueError
                "Multiclass pipelines require y to have 3 or more unique classes!")))
  /\
  (infer_feature_types_X_raises X = None ->
   infer_feature_types_y_raises y = None ->
   nunique (infer_feature_types_y y) <> 1%nat ->
   nunique (infer_feature_types_y y) <> 2%nat ->
   Raising.fit X y data_splitter force_retrain s =
   Raising.fit_checked (infer_feature_types_X X) (infer_feature_types_y y)
     data_splitter force_retrain s).
Proof.
  intros Hbin Hmulti.
  rewrite check_classes_cases, Hbin, Hmulti. simpl.
  change (ValueError multiclass_requires)
    with (ValueError
            "Multiclass pipelines require y to have 3 or more unique classes!").
  destruct (Nat.eqb_spec (nunique (infer_feature_types_y y)) 1) as [Hn1|Hn1];
    [|destruct (Nat.eqb_spec (nunique (infer_feature_types_y y)) 2)
        as [Hn2|Hn2]];
    simpl.
  - split; [split; [by left | done]|].
    split; [split; [discriminate | by intros [? _]]|].
    split; [|done].
    intros HX Hy _. rewrite fit_up_to_check, HX, Hy, Hbin, Hmulti.
    apply Nat.eqb_eq in Hn1. by rewrite Hn1.
  - split; [split; [by right | done]|].
    split; [split; [discriminate | by intros [_ ?]]|].
    split; [|done].
    intros HX Hy _. rewrite fit_up_to_check, HX, Hy, Hbin, Hmulti.
    apply Nat.eqb_eq in Hn2. rewrite Hn2. by rewrite orb_true_r.
  - split; [split; [discriminate | by intros [?|?]]|].
    split; [done|].
    split; [by intros _ _ [?|?]|].
    intros HX Hy _ _. rewrite fit_up_to_check, HX, Hy, Hbin, Hmulti.
    apply Nat.eqb_neq in Hn1, Hn2. by rewrite Hn1, Hn2.
Qed.

Lemma X8_witness_two_and_three_classes :
  Raising.fit Sample.X4 Sample.y4 None false Sample.s0_multiclass
    = (Sample.s0_multiclass,
       Raised
         (ValueError
            "Multiclass pipelines require y to have 3 or more unique classes!"))
  /\
  Raising.fit Sample.X4
      (mkSeries [10; 11; 12; 13] [Some 0; Some 1; Some 2; Some 1])
      None false Sample.s0_multiclass
  = Raising.fit_checked Sample.X4
      (mkSeries [10; 11; 12; 13] [Some 0; Some 1; Some 2; Some 1])
      None false Sample.s0_multiclass.
Proof.
  destruct (X8_multiclass_fit_rejects_one_or_two_classes
              Sample.X4 Sample.y4 None false Sample.s0_multiclass)
    as (_ & _ & Hbad & _); [reflexivity | reflexivity |].
  destruct (X8_multiclass_fit_rejects_one_or_two_classes
              Sample.X4
              (mkSeries [10; 11; 12; 13] [Some 0; Some 1; Some 2; Some 1])
              None false Sample.s0_multiclass)
    as (_ & _ & _ & Hgood); [reflexivity | reflexivity |].
  split.
  - apply Hbad; [reflexivity | reflexivity | by right].
  - apply Hgood; [reflexivity | reflexivity | |]; vm_compute; lia.
Defined.

(** ** [transform] read off the pipelines *)

Section RaisingRuns.

Context {V : Type} `{EqDecision V} {PT CG P : Type}.
Context `{PipelineContract V P} `{Collaborators V PT CG}.
Context `{Failures V PT CG P}.

Local Abbreviation Mo := (@M V PT CG P).

Implicit Types (s : State V PT CG P).

Lemma attempt_run {A : Type} (raises : option exn) (value : A) s :
  Raising.attempt raises value s = (s, outcome_of (attempt_value raises value)).
Proof. by destruct raises. Qed.

(** A call whose outcome is read by [r], followed by [k]. *)
Lemma bind_reads {A B : Type} (c : Mo A) (k : A -> Mo B) (r : exn + A)
  s s1 :
  c s = (s1, outcome_of r) ->
  bindM c k s = match r with
                | inl e => (s1, Raised e)
                | inr a => k a s1
                end.
Proof. intros Hc. unfold bindM. rewrite Hc. by destruct r. Qed.

(** A loop whose steps are read one by one: [Inv i] holds before step [i],
    and [Exc] when a step has raised. *)
Lemma mapM_reads_from {A C B : Type} (f : A -> Mo B) (g : C -> exn + B)
  (Inv : nat -> State V PT CG P -> Prop) (Exc : State V PT CG P -> Prop)
  (l : list A) (l' : list C) (k : nat) :
  length l = length l' ->
  (forall i a c s, l !! i = Some a -> l' !! i = Some c -> Inv (k + i)%nat s ->
     exists s', f a s = (s', outcome_of (g c)) /\
       match g c with
       | inr _ => Inv (S (k + i)) s'
       | inl _ => Exc s'
       end) ->
  forall s, Inv k s ->
  exists s', mapM f l s = (s', outcome_of (mapE g l')) /\
    match mapE g l' with
    | inr _ => Inv (k + length l)%nat s'
    | inl _ => Exc s'
    end.
Proof.
  revert l' k. induction l as [|a l IH]; intros [|c l'] k Hlen Hstep s Hinv;
    try done.
  - exists s. simpl. by rewrite Nat.add_0_r.
  - injection Hlen as Hlen. simpl.
    destruct (Hstep 0%nat a c s eq_refl eq_refl) as (s1 & Hrun1 & Hpost1).
    { by rewrite Nat.add_0_r. }
    rewrite (bind_reads _ _ _ _ _ Hrun1).
    destruct (g c) as [e|b]; simpl; [by exists s1|].
    rewrite Nat.add_0_r in Hpost1.
    destruct (IH l' (S k) Hlen) with (s := s1) as (s2 & Hrun2 & Hpost2);
      [|done|].
    { intros i a' c' s' Ha Hc Hinv'.
      destruct (Hstep (S i) a' c' s' Ha Hc) as (s3 & Hrun3 & Hpost3).
      { by rewrite Nat.add_succ_r. }
      exists s3. split; [done|]. by rewrite Nat.add_succ_r in Hpost3. }
    rewrite (bind_reads _ _ _ _ _ Hrun2).
    destruct (mapE g l') as [e|bs]; simpl; [by exists s2|].
    exists s2. split; [done|]. by rewrite Nat.add_succ_r.
Qed.

Lemma mapM_reads {A C B : Type} (f : A -> Mo B) (g : C -> exn + B)
  (Inv : nat -> State V PT CG P -> Prop) (Exc : State V PT CG P -> Prop)
  (l : list A) (l' : list C) :
  length l = length l' ->
  (forall i a c s, l !! i = Some a -> l' !! i = Some c -> Inv i s ->
     exists s', f a s = (s', outcome_of (g c)) /\
       match g c with
       | inr _ => Inv (S i) s'
       | inl _ => Exc s'
       end) ->
  forall s, Inv 0%nat s ->
  exists s', mapM f l s = (s', outcome_of (mapE g l')) /\
    match mapE g l' with
    | inr _ => Inv (length l) s'
    | inl _ => Exc s'
    end.
Proof. intros Hlen Hstep. by apply (mapM_reads_from f g Inv Exc l l' 0). Qed.

(** [pipeline.predict_proba(X)] when it may raise. *)
Lemma raising_predict_proba_run (pipeline : loc) (X : DataFrame V) (p : P) s :
  pipes s !! pipeline = Some p ->
  Raising.call_predict_proba pipeline X s =
  match predict_proba_raises p X with
  | Some e => (s, Raised e)
  | None =>
      (mkState (<[fresh (dom (frames s)) := pl_predict_proba p X]> (frames s))
         (pipes s) (self s) (log s ++ [EvPredictProba pipeline X]),
       Done (fresh (dom (frames s))))
  end.
Proof.
  intros Hp. unfold Raising.call_predict_proba.
  unfold bindM at 1, get_pipe at 1. rewrite Hp.
  destruct (predict_proba_raises p X) as [e|]; [done|]. simpl.
  unfold bindM at 1. simpl. by apply call_predict_proba_run.
Qed.

(** One pipeline asked for its prediction, and the prediction reshaped. *)
Lemma prediction_reads (X : DataFrame V) (pipeline : loc) (p : P) s :
  pipes s !! pipeline = Some p ->
  (forall df, pl_predict_proba p X = ODataFrame df -> NoDup (df_columns df)) ->
  exists s',
    (let! pl_preds := Raising.call_predict_proba pipeline X in
     let! name := call_name pipeline in
     let! r := _preds_processor pl_preds name in
     get_dataframe r) s = (s', outcome_of (prediction_reading p X)) /\
    kept s s' /\
    (forall df, prediction_reading p X = inr df ->
       log s' = (log s ++ [EvPredictProba pipeline X])%list) /\
    (exists evs, log s' = (log s ++ evs)%list).
Proof.
  intros Hp Hww. unfold prediction_reading.
  unfold bindM at 1. rewrite (raising_predict_proba_run pipeline X p s Hp).
  destruct (predict_proba_raises p X) as [e|]; simpl.
  { exists s. split; [done|]. split; [apply kept_refl|].
    split; [done|]. exists []. by rewrite app_nil_r. }
  set (l0 := fresh (dom (frames s))).
  assert (Hl0 : l0 ∉ dom (frames s)) by apply is_fresh.
  set (s1 := mkState _ _ _ _).
  assert (Hnew : forall l, is_Some (frames s !! l) ->
                   l <> l0 /\ frames s1 !! l = frames s !! l).
  { intros l Hl.
    assert (l <> l0) by (intros ->; destruct Hl0; by apply elem_of_dom).
    split; [done|]. simpl. by rewrite lookup_insert_ne. }
  rewrite (bindM_done _ _ s1 s1 (pl_name p)) by by apply call_name_run.
  destruct (pl_predict_proba p X) as [df| |] eqn:Hpred; simpl.
  - destruct (preds_processor_run s1 l0 (pl_name p) df)
      as (fr & r & Hrun & _ & Hr & _ & Hkeep).
    { simpl. by rewrite lookup_insert_eq. }
    { by apply Hww. }
    rewrite (bindM_done _ _ _ _ _ Hrun).
    rewrite (get_dataframe_run r (spec_reshape df (pl_name p))) by done.
    eexists. split; [done|]. split.
    { split; [done|]. split; [done|]. intros l Hl. simpl.
      destruct (Hnew l Hl) as [Hne <-].
      apply Hkeep; [done|]. simpl. by rewrite lookup_insert_ne. }
    split; [done|]. by eexists.
  - rewrite (bindM_raised _ _ s1 s1 (ValueError preds_not_dataframe)).
    + eexists. split; [done|]. split.
      { split; [done|]. split; [done|]. intros l Hl. by apply Hnew. }
      split; [done|]. by eexists.
    + apply (preds_processor_not_a_table s1 l0 _ (OSeries y)); [|done].
      simpl. by rewrite lookup_insert_eq.
  - rewrite (bindM_raised _ _ s1 s1 (ValueError preds_not_dataframe)).
    + eexists. split; [done|]. split.
      { split; [done|]. split; [done|]. intros l Hl. by apply Hnew. }
      split; [done|]. by eexists.
    + apply (preds_processor_not_a_table s1 l0 _ ONone); [|done].
      simpl. by rewrite lookup_insert_eq.
Qed.

(** The loop of [transform]. *)
Lemma predictions_read (X : DataFrame V) (ls : list loc) (ps : list P) s :
  Forall2 (fun l p => pipes s !! l = Some p) ls ps ->
  (forall p df, p ∈ ps -> pl_predict_proba p X = ODataFrame df ->
                NoDup (df_columns df)) ->
  exists s',
    mapM (fun pipeline =>
            let! pl_preds := Raising.call_predict_proba pipeline X in
            let! name := call_name pipeline in
            let! r := _preds_processor pl_preds name in
            get_dataframe r) ls s
      = (s', outcome_of (mapE (fun p => prediction_reading p X) ps)) /\
    kept s s' /\
    (forall dfs, mapE (fun p => prediction_reading p X) ps = inr dfs ->
       log s' = (log s ++ map (fun l => EvPredictProba l X) ls)%list).
Proof.
  intros Hps Hww.
  destruct (mapM_reads
              (fun pipeline =>
                 let! pl_preds := Raising.call_predict_proba pipeline X in
                 let! name := call_name pipeline in
                 let! r := _preds_processor pl_preds name in
                 get_dataframe r)
              (fun p => prediction_reading p X)
              (fun i s' => kept s s' /\
                 log s' = (log s ++ map (fun l => EvPredictProba l X)
                                        (take i ls))%list)
              (fun s' => kept s s')
              ls ps) with (s := s) as (s' & Hrun & Hpost).
  - by eapply Forall2_length.
  - intros i l p s1 Hl Hp [Hkept Hlog].
    assert (Hpl : pipes s1 !! l = Some p).
    { destruct Hkept as (_ & -> & _).
      by apply (Forall2_lookup_lr _ _ _ i l p Hps). }
    destruct (prediction_reads X l p s1 Hpl) as (s2 & Hrun & Hk & Hlg & _).
    { intros df. apply Hww. by eapply list_elem_of_lookup_2. }
    exists s2. split; [done|].
    destruct (prediction_reading p X) as [e|df] eqn:Hread.
    + by eapply kept_trans.
    + split; [by eapply kept_trans|].
      rewrite (Hlg df eq_refl), Hlog, <- app_assoc. f_equal.
      rewrite (take_S_r _ _ l Hl), map_app. done.
  - split; [apply kept_refl|]. simpl. by rewrite app_nil_r.
  - exists s'. split; [done|].
    destruct (mapE _ ps) as [e|dfs]; [done|].
    destruct Hpost as [Hkept Hlog]. split; [done|].
    intros _ _. by rewrite Hlog, firstn_all.
Qed.

(** [transform] with every input pipeline fitted. *)
Lemma raising_transform_reads (X : DataFrame V) (ps : list P) s :
  Forall2 (fun l p => pipes s !! l = Some p) (input_pipelines (self s)) ps ->
  forallb pl_is_fitted ps = true ->
  (forall p df, p ∈ ps -> pl_predict_proba p X = ODataFrame df ->
                NoDup (df_columns df)) ->
  exists s',
    Raising.transform X s = (s', outcome_of (transform_reading X ps)) /\
    kept s s' /\
    (forall m, transform_reading X ps = inr m ->
       log s' = (log s ++ map (fun l => EvPredictProba l X)
                              (input_pipelines (self s)))%list).
Proof.
  intros Hps Hfit Hww. unfold Raising.transform, transform_reading.
  rewrite (bindM_done _ _ s s true)
    by by rewrite (all_input_pipelines_fitted_done ps), Hfit.
  simpl. rewrite (bindM_done get_self _ s s (self s)) by done.
  destruct (predictions_read X (input_pipelines (self s)) ps s Hps Hww)
    as (s' & Hrun & Hkept & Hlog).
  rewrite (bind_reads _ _ _ _ _ Hrun).
  destruct (mapE _ ps) as [e|dfs]; simpl.
  - by exists s'.
  - exists s'. rewrite attempt_run. split; [done|]. split; [done|].
    intros m _. by apply (Hlog dfs).
Qed.

Lemma raising_transform_unfitted (X : DataFrame V) (ps : list P) s :
  Forall2 (fun l p => pipes s !! l = Some p) (input_pipelines (self s)) ps ->
  forallb pl_is_fitted ps = false ->
  Raising.transform X s = (s, Raised (ValueError needs_to_be_fitted)).
Proof.
  intros Hps Hfit. unfold Raising.transform.
  rewrite (bindM_done _ _ s s false)
    by by rewrite (all_input_pipelines_fitted_done ps), Hfit.
  done.
Qed.

End RaisingRuns.

(** X9: [transform] when every input pipeline is fitted and the predictions
    that are tables are woodwork tables.  Its outcome is the one of
    [transform_reading]: for each input pipeline in turn, [predict_proba(X)]
    and the reshaping of what it gives under the name of the pipeline, the
    first exception ending the loop ([predict_proba] raising, or the
    [ValueError] of [_preds_processor] for a prediction that is no table);
    then the tables side by side, as far as [ww.concat_columns] accepts
    them.  Whatever the outcome, the ensemble, the pipelines and the tables
    that existed are as they were; when [transform] returns, it has called
    [predict_proba(X)] once on each input pipeline, in order, and nothing
    else. *)
Theorem X9_transform_puts_reshaped_predictions_side_by_side
  {V : Type} `{EqDecision V} {PT CG P : Type}
  `{PipelineContract V P} `{Collaborators V PT CG} `{Failures V PT CG P}
  (X : DataFrame V) (ps : list P) (s : State V PT CG P) :
  Forall2 (fun l p => pipes s !! l = Some p) (input_pipelines (self s)) ps ->
  forallb pl_is_fitted ps = true ->
  (forall p df, p ∈ ps -> pl_predict_proba p X = ODataFrame df ->
                NoDup (df_columns df)) ->
  exists s' : State V PT CG P,
    Raising.transform X s = (s', outcome_of (transform_reading X ps)) /\
    self s' = self s /\ pipes s' = pipes s /\
    (forall l, is_Some (frames s !! l) -> frames s' !! l = frames s !! l) /\
    (forall m, transform_reading X ps = inr m ->
       log s' = (log s ++ map (fun l => EvPredictProba l X)
                              (input_pipelines (self s)))%list).
Proof.
  intros Hps Hfit Hww.
  destruct (raising_transform_reads X ps s Hps Hfit Hww)
    as (s' & Hrun & (Hself & Hpipes & Hframes) & Hlog).
  by exists s'.
Qed.

Lemma X9_witness_one_pipeline_and_two_of_one_name :
  (exists s',
    Raising.transform Sample.X4 Sample.s_fitted =
    (s', Done (mkDataFrame [10; 11; 12; 13]
                 [(LStr "Col 1 rf.x", [Some 1; Some 1; Some 1; Some 1])])) /\
    log s' = [EvPredictProba 0%nat Sample.X4]) /\
  (exists s',
    Raising.transform Sample.X4 Sample.s_same_name =
    (s', Raised (ValueError "Duplicate column names")) /\
    pipes s' = pipes Sample.s_same_name).
Proof.
  split.
  - destruct (X9_transform_puts_reshaped_predictions_side_by_side
                Sample.X4
                [Sample.mkToy "rf" [LStr "no"; LStr "yes"] [4%nat]]
                Sample.s_fitted)
      as (s' & Hrun & _ & _ & _ & Hlog).
    + repeat constructor.
    + reflexivity.
    + intros p df Hp Hdf. apply list_elem_of_singleton in Hp as ->.
      injection Hdf as <-. refine (bool_decide_unpack _ _). vm_compute. exact I.
    + exists s'. split; [exact Hrun|]. by eapply Hlog.
  - destruct (X9_transform_puts_reshaped_predictions_side_by_side
                Sample.X4
                [Sample.mkToy "rf" [LStr "no"; LStr "yes"] [4%nat];
                 Sample.mkToy "rf" [LStr "no"; LStr "yes"] [4%nat]]
                Sample.s_same_name)
      as (s' & Hrun & _ & Hpipes & _).
    + repeat constructor.
    + reflexivity.
    + intros p df Hp Hdf.
      apply elem_of_cons in Hp as [->|Hp];
        [|apply list_elem_of_singleton in Hp as ->];
        injection Hdf as <-; refine (bool_decide_unpack _ _); vm_compute;
        exact I.
    + exists s'. split; [exact Hrun | exact Hpipes].
Defined.

(** ** [_predict] and [predict_proba] *)

(** X10: the two prediction methods go through [transform] first.  While
    not all input pipelines are fitted, [_predict] and [predict_proba] raise
    the [ValueError] of [transform], for all their arguments and without
    changing anything.  With all of them fitted, an exception of
    [transform] is theirs, and when [transform] returns a table they give
    what the inherited method makes of that table and the unchanged
    ensemble; the second and third argument of [predict_proba] play no
    part. *)
Theorem X10_predictions_go_through_transform
  {V : Type} `{EqDecision V} {PT CG P Obj : Type}
  `{PipelineContract V P} `{Collaborators V PT CG} `{Failures V PT CG P}
  `{BasePipeline V PT CG Obj} `{BaseFailures V PT CG Obj}
  (X : DataFrame V) (objective : option Obj)
  (X_train : option (DataFrame V)) (y_train : option (Series V))
  (ps : list P) (s : State V PT CG P) :
  Forall2 (fun l p => pipes s !! l = Some p) (input_pipelines (self s)) ps ->
  (forallb pl_is_fitted ps = false ->
   Raising._predict X objective s =
   (s, Raised
         (ValueError "Input pipelines needs to be fitted before transform"))
   /\
   Raising.predict_proba X X_train y_train s =
   (s, Raised
         (ValueError "Input pipelines needs to be fitted before transform")))
  /\
  (forallb pl_is_fitted ps = true ->
   (forall p df, p ∈ ps -> pl_predict_proba p X = ODataFrame df ->
                 NoDup (df_columns df)) ->
   exists s' : State V PT CG P,
     Raising.transform X s = (s', outcome_of (transform_reading X ps)) /\
     self s' = self s /\
     Raising._predict X objective s =
     (s', outcome_of
            (let? metalearner_X := transform_reading X ps in
             attempt_value
               (super_predict_raises (self s) metalearner_X objective)
               (super_predict (self s) metalearner_X objective))) /\
     Raising.predict_proba X X_train y_train s =
     (s', outcome_of
            (let? metalearner_X := transform_reading X ps in
             attempt_value
               (super_predict_proba_raises (self s) metalearner_X)
               (super_predict_proba (self s) metalearner_X)))).
Proof.
  intros Hps. split.
  - intros Hfit. unfold Raising._predict, Raising.predict_proba.
    split; apply bindM_raised; by apply (raising_transform_unfitted X ps).
  - intros Hfit Hww.
    destruct (raising_transform_reads X ps s Hps Hfit Hww)
      as (s' & Hrun & (Hself & _) & _).
    exists s'. split; [done|]. split; [done|].
    unfold Raising._predict, Raising.predict_proba.
    rewrite !(bind_reads _ _ _ _ _ Hrun).
    destruct (transform_reading X ps) as [e|m]; [done|]. simpl.
    rewrite !(bindM_done get_self _ s' s' (self s')) by done.
    by rewrite !attempt_run, Hself.
Qed.

Lemma X10_witness_unfitted_and_fitted :
  Raising.predict_proba (Obj := unit) Sample.X4 None None Sample.s0 =
  (Sample.s0,
   Raised (ValueError "Input pipelines needs to be fitted before transform"))
  /\
  exists s',
    Raising.predict_proba (Obj := unit) Sample.X4 (Some Sample.X4)
      (Some Sample.y4) Sample.s_fitted
    = (s', Done (mkDataFrame [10; 11; 12; 13]
                   [(LStr "Col 1 rf.x", [Some 1; Some 1; Some 1; Some 1])])).
Proof.
  split.
  - apply (X10_predictions_go_through_transform (Obj := unit)
             Sample.X4 None None None
             [Sample.mkToy "rf" [LStr "no"; LStr "yes"] []] Sample.s0).
    + repeat constructor.
    + reflexivity.
  - destruct (X10_predictions_go_through_transform (Obj := unit)
                Sample.X4 None (Some Sample.X4) (Some Sample.y4)
                [Sample.mkToy "rf" [LStr "no"; LStr "yes"] [4%nat]]
                Sample.s_fitted) as [_ Hfitted].
    + repeat constructor.
    + destruct Hfitted as (s' & _ & _ & _ & Hproba).
      * reflexivity.
      * intros p df Hp Hdf. apply list_elem_of_singleton in Hp as ->.
        injection Hdf as <-. refine (bool_decide_unpack _ _). vm_compute.
        exact I.
      * exists s'. exact Hproba.
Defined.
